(** * Presence-transition notifier of [discord_bot.py]

    A shallow embedding of the decision logic of the Discord "online member
    tracker" bot: the two gateway event handlers [on_member_update] and
    [on_presence_update], the DM fan-out [send_dm_notifications], the roster
    query [get_online_members] and the start-up bookkeeping of [on_ready].

    Python code runs in a small writer/exception monad [Py]: a computation
    yields the trace of its observable effects (log records, outbound direct
    messages, entries into the fan-out) together with either a value or a
    raised exception.  The result of an outbound [send] is supplied by the
    environment.

    The slash commands, [load_settings] and [save_settings] act on the global
    bot and on the settings file; they run in [Cmd], which adds that state
    and keeps it when an exception is raised. *)

From stdpp Require Import gmap strings list.
From Stdlib Require Import DecimalString DecimalZ DecimalPos.

(** ** Data model (the parts of discord.py objects the bot reads) *)

(** [discord.Status]; [do_not_disturb] is an alias of [dnd]. *)
Inductive Status := online | offline | idle | dnd | invisible.

#[global] Instance Status_eq_dec : EqDecision Status.
Proof. solve_decision. Defined.

(** [discord.Role]: compared by [id] ([Hashable.__eq__]). *)
Record Role := mkRole {
  role_id : Z;
  role_name : string
}.

(** [discord.Member]: compared by [id].  [roles] is the value of the
    [Member.roles] property, [activity] of [Member.activity]. *)
Record Member := mkMember {
  member_id : Z;
  display_name : string;
  bot : bool;
  status : Status;
  activity : option string;
  roles : list Role
}.

(** [discord.Guild]: [members] is the cached roster, [guild_roles] the
    [_roles] dictionary read by [Guild.get_role]. *)
Record Guild := mkGuild {
  guild_id : Z;
  guild_name : string;
  member_count : Z;
  members : list Member;
  guild_roles : gmap Z Role
}.

(** The instance attributes of [OnlineMemberTracker]. *)
Record Bot := mkBot {
  notification_channels : gmap Z Z;
  target_roles : gmap Z Z;
  previous_online : gmap Z (gset Z)
}.

(** [role in member.roles]: list membership under [Role.__eq__]. *)
Definition role_in (r : Role) (rs : list Role) : Prop :=
  role_id r ∈ role_id <$> rs.

#[global] Instance role_in_dec r rs : Decision (role_in r rs).
Proof. unfold role_in. apply _. Defined.

(** [Guild.get_role(role_id)] *)
Definition get_role (guild : Guild) (rid : Z) : option Role :=
  guild_roles guild !! rid.

(** [Role.members]: the cached guild members that hold the role. *)
Definition role_members (guild : Guild) (r : Role) : list Member :=
  filter (λ m, role_in r (roles m)) (members guild).

(** ** Exceptions, effects and the [Py] monad *)

(** The exception classes the handlers distinguish.  [Forbidden] is a
    subclass of [discord.HTTPException]; [HTTPException] below stands for
    its other instances and [OtherException] for any other [Exception]. *)
Inductive exn := Forbidden | HTTPException | OtherException.

Definition is_Forbidden (e : exn) : bool :=
  match e with Forbidden => true | _ => false end.
Definition is_HTTPException (e : exn) : bool :=
  match e with Forbidden | HTTPException => true | OtherException => false end.
Definition is_Exception (e : exn) : bool := true.

Inductive LogLevel := INFO | WARNING | ERROR.

(** One constructor per log line of the modelled functions, carrying the
    values interpolated into its f-string. *)
Inductive LogMsg :=
(* send_dm_notifications *)
| SendingDMNotifications (name : string)
| NoMembersToNotify (name : string)
| DMSent (name : string)
| CannotSendDM (name : string)
| FailedToSendDM (name : string) (e : exn)
| UnexpectedErrorSendingDM (name : string) (e : exn)
| DMSummary (successful_dms failed_dms : nat)
| ErrorInSendDMNotifications (e : exn)
(* on_member_update *)
| MemberUpdateTriggered (name : string) (mid : Z) (gname : string)
| StatusLine (b a : Status)
| ActivityLine (b a : option string)
| RolesLine (names : list string)
| NoStatusChange (name : string)
| SkippingBot (name : string)
| StatusChangeDetected (name : string) (gid : Z) (b a : Status)
| MemberRolesLine (name : string) (names : list string)
| NoTargetRoleSet (gid : Z)
| TargetRoleNotFound (rid gid : Z)
| LacksTargetRole (name rname : string)
| MemberRolesDetail (rs : list (string * Z))
| TargetRoleID (rid : Z)
| HasTargetRole (name rname : string)
| ProcessingNotification (name : string)
| CameOnline (name : string)
| WentOffline (name : string)
| HTTPErrorInMemberUpdate (e : exn)
| ErrorInMemberUpdateHandler (e : exn)
(* on_presence_update *)
| PresenceUpdate (name : string) (b a : Status)
| ActivityChanged (b a : option string)
| StatusTransition (was_online is_online : bool)
| ErrorInPresenceUpdateHandler (e : exn)
(* on_ready *)
| Connected
| InGuilds (n : nat)
| BotStatusSet
| FailedToSetBotStatus (e : exn)
| SyncedCommands (n : nat)
| FailedToSyncCommands (e : exn)
| GuildLine (gname : string) (gid : Z)
| TotalMembers (n : Z)
| CachedMembers (n : nat)
| OnlineMembersVisible (n : nat)
| OfflineMembersVisible (n : nat)
| TargetRoleLine (rname : string) (rid : Z) (n : nat)
| TargetRoleMemberLine (i : nat) (name : string) (s : Status)
| TargetRoleNotFoundAtStartup (rid : Z).

Inductive Effect :=
| Log (lvl : LogLevel) (msg : LogMsg)
    (* logger.info / logger.warning / logger.error *)
| DM (recipient : Member) (outcome : option exn)
    (* await recipient.send(embed=embed) and what it raised, if anything *)
| FanOut (member : Member) (target_role : Role)
    (* entry into send_dm_notifications(member, target_role) *)
| ChangePresence
    (* await self.change_presence(...) *)
| TreeSync.
    (* await self.tree.sync() *)

#[global] Instance Role_eq_dec : EqDecision Role.
Proof. solve_decision. Defined.
#[global] Instance Member_eq_dec : EqDecision Member.
Proof. solve_decision. Defined.
#[global] Instance exn_eq_dec : EqDecision exn.
Proof. solve_decision. Defined.
#[global] Instance LogLevel_eq_dec : EqDecision LogLevel.
Proof. solve_decision. Defined.
#[global] Instance LogMsg_eq_dec : EqDecision LogMsg.
Proof. solve_decision. Defined.
#[global] Instance Effect_eq_dec : EqDecision Effect.
Proof. solve_decision. Defined.

Definition Trace := list Effect.

Inductive Result (A : Type) :=
| Returned (a : A)
| Raised (e : exn).
Arguments Returned {A} a.
Arguments Raised {A} e.

Definition Py (A : Type) : Type := Trace * Result A.

Definition trace {A} (c : Py A) : Trace := c.1.
Definition result {A} (c : Py A) : Result A := c.2.

Definition py_ret {A} (a : A) : Py A := ([], Returned a).

Definition py_bind {A B} (f : A → Py B) (c : Py A) : Py B :=
  match c with
  | (t, Returned a) => let '(t', r) := f a in (t ++ t', r)
  | (t, Raised e) => (t, Raised e)
  end.

#[global] Instance Py_ret : MRet Py := @py_ret.
#[global] Instance Py_bind : MBind Py := @py_bind.

Definition emit (ev : Effect) : Py unit := ([ev], Returned tt).
Definition log (lvl : LogLevel) (msg : LogMsg) : Py unit := emit (Log lvl msg).
Definition raise {A} (e : exn) : Py A := ([], Raised e).

(** The [except] clauses of a [try] statement, in source order: a class test
    and the handler body. *)
Definition Clauses (A : Type) : Type := list ((exn → bool) * (exn → Py A)).

Fixpoint dispatch {A} (handlers : Clauses A) (e : exn) : Py A :=
  match handlers with
  | [] => raise e
  | (isinstance, h) :: rest => if isinstance e then h e else dispatch rest e
  end.

Definition try_except {A} (body : Py A) (handlers : Clauses A) : Py A :=
  match body with
  | (t, Returned a) => (t, Returned a)
  | (t, Raised e) => let '(t', r) := dispatch handlers e in (t ++ t', r)
  end.

(** [for x in l: s = body(s, x)], threading the loop's local variables. *)
Fixpoint for_each {A S} (l : list A) (s : S) (body : S → A → Py S) : Py S :=
  match l with
  | [] => mret s
  | x :: l' => s' ← body s x; for_each l' s' body
  end.

(** ** The bot *)

Section OnlineMemberTracker.

(** What [recipient.send] does when the fan-out calls it: [None] when the
    message goes out, [Some e] when the call raises [e]. *)
Variable send_outcome : Member → option exn.

(** What the two start-up calls of [on_ready] do: [change_presence] may
    raise, [tree.sync] raises or returns the synced commands (their number
    is all that is read). *)
Variable change_presence_outcome : option exn.
Variable tree_sync_outcome : exn + nat.

Definition send (recipient : Member) : Py unit :=
  match send_outcome recipient with
  | None => ([DM recipient None], Returned tt)
  | Some e => ([DM recipient (Some e)], Raised e)
  end.

(** The online test applied to a member's status throughout:
    [m.status != Status.offline and m.status != Status.invisible]. *)
Definition shows_online (m : Member) : bool :=
  bool_decide (status m ≠ offline) && bool_decide (status m ≠ invisible).

(** [get_online_members]: "Get list of online non-bot members". *)
Definition get_online_members (guild : Guild) : list Member :=
  filter (λ member, bot member = false ∧ status member ≠ offline
                    ∧ status member ≠ invisible)
         (members guild).

(** The list comprehension of [send_dm_notifications]:
    [[m for m in target_role.members if m != member and not m.bot]]. *)
Definition members_to_notify (guild : Guild) (member : Member)
    (target_role : Role) : list Member :=
  filter (λ m, member_id m ≠ member_id member ∧ bot m = false)
         (role_members guild target_role).

(** The body of the fan-out loop.  The counters are the locals
    [(successful_dms, failed_dms)]; only [send] can raise inside the [try],
    so a handler always sees the counters as they were on entry. *)
Definition notify_one (counters : nat * nat) (notify_member : Member)
    : Py (nat * nat) :=
  let '(successful_dms, failed_dms) := counters in
  try_except
    (send notify_member;;
     log INFO (DMSent (display_name notify_member));;
     mret (S successful_dms, failed_dms))
    [ (is_Forbidden, λ _,
         log WARNING (CannotSendDM (display_name notify_member));;
         mret (successful_dms, S failed_dms));
      (is_HTTPException, λ e,
         log ERROR (FailedToSendDM (display_name notify_member) e);;
         mret (successful_dms, S failed_dms));
      (is_Exception, λ e,
         log ERROR (UnexpectedErrorSendingDM (display_name notify_member) e);;
         mret (successful_dms, S failed_dms)) ].

(** [send_dm_notifications(member, target_role)]; [guild] is [member.guild],
    whose roster [target_role.members] reads.  Building the embed has no
    effect of its own and is left out. *)
Definition send_dm_notifications (guild : Guild) (member : Member)
    (target_role : Role) : Py unit :=
  emit (FanOut member target_role);;
  try_except
    (log INFO (SendingDMNotifications (display_name member));;
     let to_notify := members_to_notify guild member target_role in
     match to_notify with
     | [] => log INFO (NoMembersToNotify (display_name member))
     | _ :: _ =>
         '(successful_dms, failed_dms) ← for_each to_notify (0, 0) notify_one;
         log INFO (DMSummary successful_dms failed_dms)
     end)
    [ (is_Exception, λ e, log ERROR (ErrorInSendDMNotifications e)) ].

(** [on_member_update(before, after)]; [guild] is [after.guild]. *)
Definition on_member_update (self : Bot) (guild : Guild)
    (before after : Member) : Py unit :=
  log INFO (MemberUpdateTriggered (display_name after) (member_id after)
                                  (guild_name guild));;
  log INFO (StatusLine (status before) (status after));;
  log INFO (ActivityLine (activity before) (activity after));;
  log INFO (RolesLine (role_name <$> roles after));;
  if decide (status before = status after) then
    log INFO (NoStatusChange (display_name after))
  else if bot after then
    log INFO (SkippingBot (display_name after))
  else
    let gid := guild_id guild in
    log INFO (StatusChangeDetected (display_name after) gid
                                   (status before) (status after));;
    log INFO (MemberRolesLine (display_name after) (role_name <$> roles after));;
    match target_roles self !! gid with
    | None => log INFO (NoTargetRoleSet gid)
    | Some target_role_id =>
      match get_role guild target_role_id with
      | None => log WARNING (TargetRoleNotFound target_role_id gid)
      | Some target_role =>
        let has_target_role := bool_decide (role_in target_role (roles after)) in
        if negb has_target_role then
          log INFO (LacksTargetRole (display_name after) (role_name target_role));;
          log INFO (MemberRolesDetail ((λ r, (role_name r, role_id r)) <$> roles after));;
          log INFO (TargetRoleID target_role_id)
        else
          log INFO (HasTargetRole (display_name after) (role_name target_role));;
          log INFO (ProcessingNotification (display_name after));;
          try_except
            (let was_online := shows_online before in
             let is_online := shows_online after in
             if negb was_online && is_online then
               log INFO (CameOnline (display_name after));;
               send_dm_notifications guild after target_role
             else if was_online && negb is_online then
               log INFO (WentOffline (display_name after))
             else mret tt)
            [ (is_HTTPException, λ e, log ERROR (HTTPErrorInMemberUpdate e));
              (is_Exception, λ e, log ERROR (ErrorInMemberUpdateHandler e)) ]
      end
    end.

(** [on_presence_update(before, after)]; [guild] is [after.guild]. *)
Definition on_presence_update (self : Bot) (guild : Guild)
    (before after : Member) : Py unit :=
  log INFO (PresenceUpdate (display_name after) (status before) (status after));;
  (if decide (activity before ≠ activity after)
   then log INFO (ActivityChanged (activity before) (activity after))
   else mret tt);;
  if decide (status before = status after) then
    log INFO (NoStatusChange (display_name after))
  else if bot after then
    log INFO (SkippingBot (display_name after))
  else
    let gid := guild_id guild in
    log INFO (StatusChangeDetected (display_name after) gid
                                   (status before) (status after));;
    match target_roles self !! gid with
    | None => log INFO (NoTargetRoleSet gid)
    | Some target_role_id =>
      match get_role guild target_role_id with
      | None => log WARNING (TargetRoleNotFound target_role_id gid)
      | Some target_role =>
        let has_target_role := bool_decide (role_in target_role (roles after)) in
        if negb has_target_role then
          log INFO (LacksTargetRole (display_name after) (role_name target_role));;
          log INFO (MemberRolesDetail ((λ r, (role_name r, role_id r)) <$> roles after));;
          log INFO (TargetRoleID target_role_id)
        else
          log INFO (HasTargetRole (display_name after) (role_name target_role));;
          log INFO (ProcessingNotification (display_name after));;
          try_except
            (let was_online := shows_online before in
             let is_online := shows_online after in
             log INFO (StatusTransition was_online is_online);;
             if negb was_online && is_online then
               log INFO (CameOnline (display_name after));;
               send_dm_notifications guild after target_role
             else if was_online && negb is_online then
               log INFO (WentOffline (display_name after))
             else mret tt)
            [ (is_Exception, λ e, log ERROR (ErrorInPresenceUpdateHandler e)) ]
      end
    end.

Definition change_presence : Py unit :=
  match change_presence_outcome with
  | None => ([ChangePresence], Returned tt)
  | Some e => ([ChangePresence], Raised e)
  end.

Definition tree_sync : Py nat :=
  match tree_sync_outcome with
  | inr synced => ([TreeSync], Returned synced)
  | inl e => ([TreeSync], Raised e)
  end.

(** The body of the [for guild in self.guilds] loop of [on_ready]; the loop
    variable threaded through is [self], whose [previous_online] entry for
    the guild is assigned at the end. *)
Definition on_ready_guild (self : Bot) (guild : Guild) : Py Bot :=
  log INFO (GuildLine (guild_name guild) (guild_id guild));;
  log INFO (TotalMembers (member_count guild));;
  log INFO (CachedMembers (length (members guild)));;
  '(online_count, offline_count) ←
    for_each (members guild) (0, 0)
      (λ '(online_count, offline_count) member,
         mret (if bot member then (online_count, offline_count)
               else if shows_online member then (S online_count, offline_count)
               else (online_count, S offline_count)));
  log INFO (OnlineMembersVisible online_count);;
  log INFO (OfflineMembersVisible offline_count);;
  match target_roles self !! guild_id guild with
  | Some target_role_id =>
    match get_role guild target_role_id with
    | Some target_role =>
        log INFO (TargetRoleLine (role_name target_role) (role_id target_role)
                                 (length (role_members guild target_role)));;
        for_each (imap pair (take 3 (role_members guild target_role))) tt
          (λ _ '(i, member),
             log INFO (TargetRoleMemberLine (i + 1) (display_name member)
                                            (status member)))
    | None => log WARNING (TargetRoleNotFoundAtStartup target_role_id)
    end
  | None => mret tt
  end;;
  let online_members := get_online_members guild in
  mret (mkBot (notification_channels self) (target_roles self)
              (<[guild_id guild := list_to_set (member_id <$> online_members)]>
                 (previous_online self))).

(** [on_ready()]; [guilds] is [self.guilds].  Returns the updated [self]. *)
Definition on_ready (self : Bot) (guilds : list Guild) : Py Bot :=
  log INFO Connected;;
  log INFO (InGuilds (length guilds));;
  try_except
    (change_presence;; log INFO BotStatusSet)
    [ (is_Exception, λ e, log ERROR (FailedToSetBotStatus e)) ];;
  try_except
    (synced ← tree_sync; log INFO (SyncedCommands synced))
    [ (is_Exception, λ e, log ERROR (FailedToSyncCommands e)) ];;
  for_each guilds self on_ready_guild.

End OnlineMemberTracker.

(** ** Observations on a trace *)

(** The outbound direct messages attempted, in order, with their outcomes. *)
Definition dms (t : Trace) : list (Member * option exn) :=
  omap (λ ev, match ev with DM m o => Some (m, o) | _ => None end) t.

(** The fan-outs entered, with their arguments. *)
Definition fan_outs (t : Trace) : list (Member * Role) :=
  omap (λ ev, match ev with FanOut m r => Some (m, r) | _ => None end) t.

(** The records logged at a given level. *)
Definition logged (lvl : LogLevel) (t : Trace) : list LogMsg :=
  omap (λ ev, match ev with
              | Log lvl' msg =>
                  match lvl, lvl' with
                  | INFO, INFO | WARNING, WARNING | ERROR, ERROR => Some msg
                  | _, _ => None
                  end
              | _ => None
              end) t.

Definition is_went_offline (ev : Effect) : bool :=
  match ev with Log INFO (WentOffline _) => true | _ => false end.

(** The outcome of handling one event: a fan-out for a member and a role,
    only the "went offline" log record, or neither. *)
Inductive Action :=
| NoAction
| LogOnly
| NotifyComingOnline (member : Member) (role : Role).

Definition action_of (t : Trace) : Action :=
  match fan_outs t with
  | (member, role) :: _ => NotifyComingOnline member role
  | [] => if existsb is_went_offline t then LogOnly else NoAction
  end.

(** The tally of a fan-out as seen from outside: messages that went out and
    attempts that raised. *)
Definition delivered (t : Trace) : nat :=
  length (filter (λ d, d.2 = None) (dms t)).
Definition undelivered (t : Trace) : nat :=
  length (filter (λ d, d.2 ≠ None) (dms t)).

(** A run that did nothing visible: no fan-out entered, no direct message
    attempted, no "went offline" record. *)
Definition quiet {A} (c : Py A) : Prop :=
  action_of (trace c) = NoAction ∧ fan_outs (trace c) = [] ∧ dms (trace c) = [].

(** The two states of the per-member state machine of the specification. *)
Inductive Presence := Offline | Online.

Definition presence (s : Status) : Presence :=
  match s with
  | online | idle | dnd => Online
  | offline | invisible => Offline
  end.

(** ** Closed forms used in the proofs *)

Section ClosedForms.

Context (send_outcome : Member → option exn).

(** The log record that follows an attempt, by its outcome. *)
Definition attempt_log (m : Member) (o : option exn) : Effect :=
  match o with
  | None => Log INFO (DMSent (display_name m))
  | Some Forbidden => Log WARNING (CannotSendDM (display_name m))
  | Some HTTPException => Log ERROR (FailedToSendDM (display_name m) HTTPException)
  | Some OtherException =>
      Log ERROR (UnexpectedErrorSendingDM (display_name m) OtherException)
  end.

(** What the loop leaves in the trace for a list of recipients. *)
Definition attempts (l : list Member) : Trace :=
  l ≫= λ m, [DM m (send_outcome m); attempt_log m (send_outcome m)].

Definition count_sent (l : list Member) : nat :=
  length (filter (λ m, send_outcome m = None) l).
Definition count_failed (l : list Member) : nat :=
  length (filter (λ m, send_outcome m ≠ None) l).

End ClosedForms.

(** The role an event is tracked under, if it passes the gates the handlers
    apply in order: status changed, not a bot, target role configured,
    resolvable, and held by the member. *)
Definition tracked_role (self : Bot) (guild : Guild) (before after : Member)
    : option Role :=
  if decide (status before = status after) then None
  else if bot after then None
  else
    target_role_id ← target_roles self !! guild_id guild;
    target_role ← get_role guild target_role_id;
    if decide (role_in target_role (roles after)) then Some target_role else None.

Definition decision (self : Bot) (guild : Guild) (before after : Member) : Action :=
  match tracked_role self guild before after with
  | None => NoAction
  | Some target_role =>
      if negb (shows_online before) && shows_online after
      then NotifyComingOnline after target_role
      else if shows_online before && negb (shows_online after) then LogOnly
      else NoAction
  end.

(** The direct messages an action stands for. *)
Definition deliveries (send_outcome : Member → option exn) (guild : Guild)
    (a : Action) : list (Member * option exn) :=
  match a with
  | NotifyComingOnline member role =>
      (λ m, (m, send_outcome m)) <$> members_to_notify guild member role
  | _ => []
  end.

(** The fan-out an action enters. *)
Definition entered (a : Action) : list (Member * Role) :=
  match a with
  | NotifyComingOnline member role => [(member, role)]
  | _ => []
  end.

(** The ids [on_ready] stores for a guild. *)
Definition online_ids (guild : Guild) : gset Z :=
  list_to_set (member_id <$> get_online_members guild).

(** What the guild loop of [on_ready] makes of [previous_online]. *)
Definition tracked_after (guilds : list Guild) (po : gmap Z (gset Z))
    : gmap Z (gset Z) :=
  foldl (λ acc guild, <[guild_id guild := online_ids guild]> acc) po guilds.

(** ** The specification's wording of the tracked set *)

Module Spec.

(** PreviousOnlineSet as the data model words it:
    [{ m.id : m in guild.members, status(m) ∈ {online, idle, dnd} }]. *)
Definition previous_online_set (guild : Guild) : gset Z :=
  list_to_set
    (member_id <$> filter (λ m, status m ∈ [online; idle; dnd]) (members guild)).

End Spec.

(** ** Scenario of the specification: role R held by u1, u2, u3; u4 outside *)

Module Scenario.

Definition R : Role := mkRole 100 "watchers".
Definition everyone : Role := mkRole 1 "@everyone".

Definition u (i : Z) (s : Status) (rs : list Role) : Member :=
  mkMember i "user" false s None (everyone :: rs).

Definition u1 := u 1 online [R].
Definition u2 := u 2 online [R].
Definition u3 := u 3 dnd [R].
Definition u4 := u 4 online [].
Definition helper_bot : Member := mkMember 9 "helper" true online None [everyone; R].

Definition guild : Guild :=
  mkGuild 1 "guild" 5 [u1; u2; u3; u4; helper_bot]
          (<[100%Z := R]> (<[1%Z := everyone]> ∅)).

Definition self : Bot := mkBot ∅ (<[1%Z := 100%Z]> ∅) ∅.

(** u2 has direct messages closed, everybody else receives. *)
Definition u2_blocked (m : Member) : option exn :=
  if decide (member_id m = 2%Z) then Some Forbidden else None.

Definition all_receive (m : Member) : option exn := None.

(** The same guild after the target role was deleted, and a guild the bot
    was never configured for. *)
Definition guild_role_deleted : Guild :=
  mkGuild 1 "guild" 5 [u1; u2; u3; u4; helper_bot] (<[1%Z := everyone]> ∅).

Definition unconfigured : Bot := mkBot ∅ ∅ ∅.

End Scenario.

(** ** Slash commands and the settings file *)

(** What [json.load] returns for a settings file: a JSON object whose two
    sections, where present, are objects from string keys to integers, kept
    in file order.  Files of any other shape are outside the model. *)
Record SettingsJson := mkSettingsJson {
  json_notification_channels : option (list (string * Z));
  json_target_roles : option (list (string * Z))
}.

(** [bot_settings.json]: missing, present but rejected by [json.load] (empty,
    truncated or otherwise malformed), or holding settings. *)
Inductive FileState :=
| Absent
| Unreadable
| Holds (data : SettingsJson).

(** The mutable state the commands act on: the global [bot] and the file. *)
Record World := mkWorld {
  tracker : Bot;
  settings_file : FileState
}.

(** [interaction.user.guild_permissions], the two flags the commands test. *)
Record Permissions := mkPermissions {
  administrator : bool;
  manage_roles : bool
}.

Record Interaction := mkInteraction {
  interaction_user : Member;
  user_permissions : Permissions;
  interaction_guild : Guild
}.

(** [discord.TextChannel]; [bot_can_send] is
    [channel.permissions_for(interaction.guild.me).send_messages]. *)
Record TextChannel := mkTextChannel {
  channel_id : Z;
  bot_can_send : bool
}.

(** The messages and embeds the commands send, one constructor per text,
    carrying the values interpolated into it. *)
Inductive Reply :=
(* setchannel, removechannel *)
| AdministratorRequired
| CannotSendIn (channel : Z)
| NotificationChannelSet (channel : Z)
| BotSetupComplete
| SetChannelFailed
| NotificationsDisabled
| NoChannelSet
| RemoveChannelFailed
(* setrole, removerole *)
| ManageRolesRequired
| TargetRoleSet (rname : string) (rid : Z) (holders : nat)
| SetRoleFailed
| NoRoleSet
| RoleFilterRemoved
| RemoveRoleFailed
(* checkrole *)
| RoleCheckResults (has_target_role : bool) (name : string)
    (user_roles : list string) (target_role : option (string * Z))
| CheckRoleFailed (e : exn)
(* testnotify *)
| NoChannelSetForTest
| NoRoleSetForTest
| ChannelNotFound
| RoleNotFound
| TestNotification (rname : string) (rid : Z) (channel : Z) (holders : nat)
| TestSent (channel : Z) (rname : string)
| TestNotifyFailed
(* testdm *)
| SampleDM (name gname : string)
| TestDMSent
| CannotSendTestDM
| TestDMFailed.

Inductive FileMode := ReadMode | WriteMode.

(** The calls into discord.py and the file system whose outcome the
    environment decides. *)
Inductive ApiCall :=
| response_send_message (reply : Reply) (ephemeral : bool)
| response_defer (ephemeral : bool)
| followup_send (reply : Reply) (ephemeral : bool)
| channel_send (channel : Z) (reply : Reply)
| user_send (user : Member) (reply : Reply)
| open_settings (mode : FileMode)
| json_dump (data : SettingsJson).

Inductive CmdLog :=
| LoadedSettings (guilds : nat)
| ErrorLoadingSettings (e : exn)
| SettingsSaved
| ErrorSavingSettings (e : exn)
| ErrorInSetchannel (e : exn)
| ErrorInRemovechannel (e : exn)
| ErrorInSetrole (e : exn)
| ErrorInRemoverole (e : exn)
| ErrorInCheckrole (e : exn)
| ErrorInTestnotify (e : exn)
| ErrorInTestdm (e : exn).

Inductive Event :=
| Logged (lvl : LogLevel) (msg : CmdLog)
| Called (call : ApiCall) (outcome : option exn).

(** Commands run in a state/writer/exception monad: the world as it is when
    an exception is raised is the world the handler (or the caller) sees. *)
Definition Cmd (A : Type) : Type := World → list Event * World * Result A.

Definition cmd_ret {A} (a : A) : Cmd A := λ w, ([], w, Returned a).

Definition cmd_bind {A B} (f : A → Cmd B) (c : Cmd A) : Cmd B := λ w,
  match c w with
  | (t, w', Returned a) => let '(t', w'', r) := f a w' in (t ++ t', w'', r)
  | (t, w', Raised e) => (t, w', Raised e)
  end.

#[global] Instance Cmd_ret : MRet Cmd := @cmd_ret.
#[global] Instance Cmd_bind : MBind Cmd := @cmd_bind.

Definition cmd_raise {A} (e : exn) : Cmd A := λ w, ([], w, Raised e).
Definition cmd_log (lvl : LogLevel) (msg : CmdLog) : Cmd unit :=
  λ w, ([Logged lvl msg], w, Returned tt).
Definition get_tracker : Cmd Bot := λ w, ([], w, Returned (tracker w)).
Definition get_file : Cmd FileState := λ w, ([], w, Returned (settings_file w)).
Definition put_file (f : FileState) : Cmd unit :=
  λ w, ([], mkWorld (tracker w) f, Returned tt).

(** [self.notification_channels = d] and [self.target_roles = d] *)
Definition assign_notification_channels (d : gmap Z Z) : Cmd unit := λ w,
  ([], mkWorld (mkBot d (target_roles (tracker w)) (previous_online (tracker w)))
               (settings_file w), Returned tt).
Definition assign_target_roles (d : gmap Z Z) : Cmd unit := λ w,
  ([], mkWorld (mkBot (notification_channels (tracker w)) d
                      (previous_online (tracker w)))
               (settings_file w), Returned tt).

Definition CmdClauses (A : Type) : Type := list ((exn → bool) * (exn → Cmd A)).

Fixpoint cmd_dispatch {A} (handlers : CmdClauses A) (e : exn) : Cmd A :=
  match handlers with
  | [] => cmd_raise e
  | (isinstance, h) :: rest => if isinstance e then h e else cmd_dispatch rest e
  end.

Definition cmd_try_except {A} (body : Cmd A) (handlers : CmdClauses A) : Cmd A :=
  λ w,
  match body w with
  | (t, w', Returned a) => (t, w', Returned a)
  | (t, w', Raised e) =>
      let '(t', w'', r) := cmd_dispatch handlers e w' in (t ++ t', w'', r)
  end.

Section Commands.

(** The environment: what each outside call does, Python's [str] and [int]
    on integers and their literals, and the client's channel cache read by
    [bot.get_channel]. *)
Variable api : ApiCall → option exn.
Variable py_str : Z → string.
Variable py_int : string → option Z.
Variable get_channel : Z → option TextChannel.

Definition call (c : ApiCall) : Cmd unit := λ w,
  ([Called c (api c)], w,
   match api c with None => Returned tt | Some e => Raised e end).

(** [json.dump] of a dictionary with integer keys: the keys become their
    [str]. *)
Definition dump_dict (d : gmap Z Z) : list (string * Z) :=
  (λ kv, (py_str kv.1, kv.2)) <$> map_to_list d.

(** [{int(k): v for k, v in items}]; [int] raises [ValueError] on a key
    that is not an integer literal. *)
Fixpoint int_keys (items : list (string * Z)) (acc : gmap Z Z) : Cmd (gmap Z Z) :=
  match items with
  | [] => mret acc
  | (k, v) :: rest =>
      match py_int k with
      | Some n => int_keys rest (<[n := v]> acc)
      | None => cmd_raise OtherException
      end
  end.

(** [open(SETTINGS_FILE, 'w')]: truncates the file when it succeeds. *)
Definition open_for_writing : Cmd unit :=
  call (open_settings WriteMode);; put_file Unreadable.

(** [json.dump(data, f, indent=2)] into the file just opened. *)
Definition dump (data : SettingsJson) : Cmd unit :=
  call (json_dump data);; put_file (Holds data).

(** [json.load(f)] *)
Definition json_load : Cmd SettingsJson :=
  f ← get_file;
  match f with
  | Holds data => mret data
  | Absent | Unreadable => cmd_raise OtherException
  end.

(** [save_settings] *)
Definition save_settings : Cmd unit :=
  cmd_try_except
    (self ← get_tracker;
     let data := mkSettingsJson (Some (dump_dict (notification_channels self)))
                                (Some (dump_dict (target_roles self))) in
     open_for_writing;;
     dump data;;
     cmd_log INFO SettingsSaved)
    [ (is_Exception, λ e, cmd_log ERROR (ErrorSavingSettings e)) ].

(** [load_settings] *)
Definition load_settings : Cmd unit :=
  cmd_try_except
    (f ← get_file;
     match f with
     | Absent => mret tt
     | _ =>
         call (open_settings ReadMode);;
         data ← json_load;
         channels ← int_keys (default [] (json_notification_channels data)) ∅;
         assign_notification_channels channels;;
         targets ← int_keys (default [] (json_target_roles data)) ∅;
         assign_target_roles targets;;
         self ← get_tracker;
         cmd_log INFO (LoadedSettings (size (notification_channels self)))
     end)
    [ (is_Exception, λ e, cmd_log ERROR (ErrorLoadingSettings e)) ].

(** [OnlineMemberTracker.__init__]: the three dictionaries start empty, then
    the settings are loaded. *)
Definition tracker_init : Cmd unit :=
  (λ w, ([], mkWorld (mkBot ∅ ∅ ∅) (settings_file w), Returned tt));;
  load_settings.

(** [/setchannel channel] *)
Definition setchannel_command (interaction : Interaction) (channel : TextChannel)
    : Cmd unit :=
  cmd_try_except
    (if negb (administrator (user_permissions interaction)) then
       call (response_send_message AdministratorRequired true)
     else if negb (bot_can_send channel) then
       call (response_send_message (CannotSendIn (channel_id channel)) true)
     else
       self ← get_tracker;
       assign_notification_channels
         (<[guild_id (interaction_guild interaction) := channel_id channel]>
            (notification_channels self));;
       save_settings;;
       call (response_send_message
               (NotificationChannelSet (channel_id channel)) false);;
       call (channel_send (channel_id channel) BotSetupComplete))
    [ (is_Exception, λ e,
         cmd_log ERROR (ErrorInSetchannel e);;
         call (response_send_message SetChannelFailed true)) ].

(** [/removechannel] *)
Definition removechannel_command (interaction : Interaction) : Cmd unit :=
  cmd_try_except
    (if negb (administrator (user_permissions interaction)) then
       call (response_send_message AdministratorRequired true)
     else
       self ← get_tracker;
       let gid := guild_id (interaction_guild interaction) in
       match notification_channels self !! gid with
       | Some _ =>
           assign_notification_channels (delete gid (notification_channels self));;
           save_settings;;
           call (response_send_message NotificationsDisabled false)
       | None => call (response_send_message NoChannelSet true)
       end)
    [ (is_Exception, λ e,
         cmd_log ERROR (ErrorInRemovechannel e);;
         call (response_send_message RemoveChannelFailed true)) ].

(** [/setrole role]; [role.members] is read in the interaction's guild. *)
Definition setrole_command (interaction : Interaction) (role : Role) : Cmd unit :=
  cmd_try_except
    (let gid := guild_id (interaction_guild interaction) in
     if negb (manage_roles (user_permissions interaction)) then
       call (response_send_message ManageRolesRequired true)
     else
       self ← get_tracker;
       assign_target_roles (<[gid := role_id role]> (target_roles self));;
       save_settings;;
       call (response_send_message
               (TargetRoleSet (role_name role) (role_id role)
                  (length (role_members (interaction_guild interaction) role)))
               true))
    [ (is_Exception, λ e,
         cmd_log ERROR (ErrorInSetrole e);;
         call (response_send_message SetRoleFailed true)) ].

(** [/removerole] *)
Definition removerole_command (interaction : Interaction) : Cmd unit :=
  cmd_try_except
    (let gid := guild_id (interaction_guild interaction) in
     if negb (manage_roles (user_permissions interaction)) then
       call (response_send_message ManageRolesRequired true)
     else
       self ← get_tracker;
       match target_roles self !! gid with
       | None => call (response_send_message NoRoleSet true)
       | Some _ =>
           assign_target_roles (delete gid (target_roles self));;
           save_settings;;
           call (response_send_message RoleFilterRemoved true)
       end)
    [ (is_Exception, λ e,
         cmd_log ERROR (ErrorInRemoverole e);;
         call (response_send_message RemoveRoleFailed true)) ].


(** [/testnotify] *)
Definition testnotify_command (interaction : Interaction) : Cmd unit :=
  cmd_try_except
    (if negb (manage_roles (user_permissions interaction)) then
       call (response_send_message ManageRolesRequired true)
     else
       let gid := guild_id (interaction_guild interaction) in
       self ← get_tracker;
       match notification_channels self !! gid with
       | None => call (response_send_message NoChannelSetForTest true)
       | Some cid =>
         match target_roles self !! gid with
         | None => call (response_send_message NoRoleSetForTest true)
         | Some rid =>
           let channel := get_channel cid in
           let target_role := get_role (interaction_guild interaction) rid in
           match channel with
           | None => call (response_send_message ChannelNotFound true)
           | Some channel =>
             match target_role with
             | None => call (response_send_message RoleNotFound true)
             | Some target_role =>
                 call (channel_send (channel_id channel)
                         (TestNotification (role_name target_role)
                            (role_id target_role) (channel_id channel)
                            (length (role_members (interaction_guild interaction)
                                                  target_role))));;
                 call (response_send_message
                         (TestSent (channel_id channel) (role_name target_role))
                         true)
             end
           end
         end
       end)
    [ (is_Exception, λ e,
         cmd_log ERROR (ErrorInTestnotify e);;
         call (response_send_message TestNotifyFailed true)) ].

(** [/testdm] *)
Definition testdm_command (interaction : Interaction) : Cmd unit :=
  cmd_try_except
    (call (response_defer true);;
     let embed := SampleDM (display_name (interaction_user interaction))
                           (guild_name (interaction_guild interaction)) in
     cmd_try_except
       (call (user_send (interaction_user interaction) embed);;
        call (followup_send TestDMSent true))
       [ (is_Forbidden, λ _, call (followup_send CannotSendTestDM true)) ])
    [ (is_Exception, λ e,
         cmd_log ERROR (ErrorInTestdm e);;
         call (followup_send TestDMFailed true)) ].

End Commands.

(** The calls a run made, in order. *)
Definition calls (t : list Event) : list ApiCall :=
  omap (λ ev, match ev with Called c _ => Some c | _ => None end) t.

(** The records a run logged at error level. *)
Definition cmd_errors (t : list Event) : list CmdLog :=
  omap (λ ev, match ev with Logged ERROR msg => Some msg | _ => None end) t.

(** ** The status groups of the online summary *)

(** [status_groups[member.status].append(member)] on the dictionary kept as
    an association list in insertion order. *)
Definition append_to_group (s : Status) (member : Member)
    (groups : list (Status * list Member)) : list (Status * list Member) :=
  (λ g, if decide (g.1 = s) then (g.1, g.2 ++ [member]) else g) <$> groups.

(** The grouping loop shared by [send_online_summary] and [/online]. *)
Definition status_groups (online_members : list Member)
    : list (Status * list Member) :=
  foldl (λ groups member,
           if decide (status member ∈ groups.*1)
           then append_to_group (status member) member groups
           else groups)
        [(online, []); (idle, []); (dnd, [])] online_members.

(** One embed field per non-empty group: its status, the count in its
    name, the names listed, how many are only counted ("...and N more"),
    and the [inline] flag. *)
Record StatusField := mkStatusField {
  field_status : Status;
  field_count : nat;
  field_names : list string;
  field_more : option nat;
  field_inline : bool
}.

(** The body of the field loop for one group; [limit] is 6 in
    [send_online_summary], 8 in [/online]. *)
Definition status_field (limit : nat) (groups : list (Status * list Member))
    (g : Status * list Member) : option StatusField :=
  let members := g.2 in
  match members with
  | [] => None
  | _ :: _ =>
      Some (mkStatusField g.1 (length members)
              (display_name <$>
                 (if decide (length members ≤ limit) then members
                  else take limit members))
              (if decide (length members ≤ limit) then None
               else Some (length members - limit))
              (bool_decide
                 (1 < length (filter (λ g' : Status * list Member, g'.2 ≠ [])
                                     groups))))
  end.

(** [for status, members in status_groups.items(): if members: ...] *)
Definition status_fields (limit : nat) (groups : list (Status * list Member))
    : list StatusField :=
  omap (status_field limit groups) groups.

(** ** Observations on a command run *)

Definition events {A} (r : list Event * World * Result A) : list Event := r.1.1.
Definition world_after {A} (r : list Event * World * Result A) : World := r.1.2.
Definition outcome {A} (r : list Event * World * Result A) : Result A := r.2.

(** What [save_settings] hands to [json.dump] for a bot. *)
Definition saved_data (py_str : Z → string) (self : Bot) : SettingsJson :=
  mkSettingsJson (Some (dump_dict py_str (notification_channels self)))
                 (Some (dump_dict py_str (target_roles self))).

Definition is_response (c : ApiCall) : bool :=
  match c with response_send_message _ _ => true | _ => false end.

Definition is_file_call (c : ApiCall) : bool :=
  match c with open_settings _ | json_dump _ => true | _ => false end.

(** The dictionary [{int(k): v for k, v in items}] builds, if every key is
    an integer literal. *)
Fixpoint parsed_keys (py_int : string → option Z) (items : list (string * Z))
    (acc : gmap Z Z) : option (gmap Z Z) :=
  match items with
  | [] => Some acc
  | (k, v) :: rest =>
      match py_int k with
      | Some n => parsed_keys py_int rest (<[n := v]> acc)
      | None => None
      end
  end.

(** ** A concrete environment *)

Module Deployment.

(** [str] and [int] on integers, in decimal. *)
Definition decimal_str (z : Z) : string := NilZero.string_of_int (Z.to_int z).
Definition decimal_int (s : string) : option Z :=
  Z.of_int <$> NilZero.int_of_string s.

Definition all_succeed (c : ApiCall) : option exn := None.

(** The notification channel cannot be written to; all else succeeds. *)
Definition channel_send_fails (c : ApiCall) : option exn :=
  match c with channel_send _ _ => Some Forbidden | _ => None end.

(** The user has direct messages closed; all else succeeds. *)
Definition user_send_forbidden (c : ApiCall) : option exn :=
  match c with user_send _ _ => Some Forbidden | _ => None end.

(** The disk is full: the file opens, the dump fails. *)
Definition dump_fails (c : ApiCall) : option exn :=
  match c with json_dump _ => Some OtherException | _ => None end.

Definition general : TextChannel := mkTextChannel 500 true.
Definition channel_cache (cid : Z) : option TextChannel :=
  if decide (cid = 500%Z) then Some general else None.

Definition admin : Permissions := mkPermissions true true.
Definition nobody : Permissions := mkPermissions false false.

Definition by_admin : Interaction :=
  mkInteraction Scenario.u2 admin Scenario.guild.
Definition by_nobody : Interaction :=
  mkInteraction Scenario.u4 nobody Scenario.guild.

Definition fresh : World := mkWorld Scenario.unconfigured Absent.
Definition configured : World :=
  mkWorld (mkBot (<[1%Z := 500%Z]> ∅) (<[1%Z := 100%Z]> ∅) ∅) Absent.

End Deployment.

(** A run that refused: the world is as before, the first call is the
    ephemeral refusal, every call is a response to the interaction, and if
    the refusal went out nothing else happened. *)
Definition refuses (api : ApiCall → option exn) (w : World) (refusal : Reply)
    (r : list Event * World * Result unit) : Prop :=
  world_after r = w
  ∧ head (calls (events r)) = Some (response_send_message refusal true)
  ∧ forallb is_response (calls (events r)) = true
  ∧ (api (response_send_message refusal true) = None →
     events r = [Called (response_send_message refusal true) None]
     ∧ outcome r = Returned tt).

Definition is_channel_send (c : ApiCall) : bool :=
  match c with channel_send _ _ => true | _ => false end.

Definition is_user_send (c : ApiCall) : bool :=
  match c with user_send _ _ => true | _ => false end.

(** The calls of a run that are not file operations. *)
Definition discord_calls (t : list Event) : list ApiCall :=
  List.filter (λ c, negb (is_file_call c)) (calls t).

(** ** Closed forms for [on_ready] and for the logs of a delivery *)

(** The records [on_ready] logs for the first members of the target role. *)
Definition role_member_lines (guild : Guild) (target_role : Role) : Trace :=
  (λ im : nat * Member,
     Log INFO (TargetRoleMemberLine (im.1 + 1) (display_name im.2) (status im.2)))
  <$> imap pair (take 3 (role_members guild target_role)).

(** Everything [on_ready] logs for one guild. *)
Definition guild_report (self : Bot) (guild : Guild) : Trace :=
  [Log INFO (GuildLine (guild_name guild) (guild_id guild));
   Log INFO (TotalMembers (member_count guild));
   Log INFO (CachedMembers (length (members guild)));
   Log INFO (OnlineMembersVisible
               (length (filter (λ m, bot m = false ∧ shows_online m = true)
                               (members guild))));
   Log INFO (OfflineMembersVisible
               (length (filter (λ m, bot m = false ∧ shows_online m = false)
                               (members guild))))]
  ++ match target_roles self !! guild_id guild with
     | Some target_role_id =>
         match get_role guild target_role_id with
         | Some target_role =>
             Log INFO (TargetRoleLine (role_name target_role) (role_id target_role)
                         (length (role_members guild target_role)))
             :: role_member_lines guild target_role
         | None => [Log WARNING (TargetRoleNotFoundAtStartup target_role_id)]
         end
     | None => []
     end.

(** What a delivery leaves in the log at warning and at error level. *)
Definition delivery_warning (d : Member * option exn) : option LogMsg :=
  match d.2 with
  | Some Forbidden => Some (CannotSendDM (display_name d.1))
  | _ => None
  end.

Definition delivery_error (d : Member * option exn) : option LogMsg :=
  match d.2 with
  | Some HTTPException => Some (FailedToSendDM (display_name d.1) HTTPException)
  | Some OtherException =>
      Some (UnexpectedErrorSendingDM (display_name d.1) OtherException)
  | _ => None
  end.

Ltac py_unfold :=
  unfold mbind, mret, Py_bind, Py_ret, py_bind, py_ret, log, emit, raise,
    try_except, trace, result.
Ltac py_simpl := py_unfold; simpl.

(** Closes a decidable goal on concrete data by evaluation. *)
Ltac by_decide := apply (bool_decide_unpack _); vm_compute; exact I.

(** ** Running the fan-out *)

Lemma dms_app t1 t2 : dms (t1 ++ t2) = dms t1 ++ dms t2.
Proof. apply omap_app. Qed.

Lemma fan_outs_app t1 t2 : fan_outs (t1 ++ t2) = fan_outs t1 ++ fan_outs t2.
Proof. apply omap_app. Qed.

Lemma logged_app lvl t1 t2 : logged lvl (t1 ++ t2) = logged lvl t1 ++ logged lvl t2.
Proof. apply omap_app. Qed.

Lemma shows_online_presence m :
  shows_online m = true ↔ presence (status m) = Online.
Proof. unfold shows_online. destruct (status m); simpl; split; done. Qed.

Lemma shows_offline_presence m :
  shows_online m = false ↔ presence (status m) = Offline.
Proof. unfold shows_online. destruct (status m); simpl; split; done. Qed.

Section FanOut.

Context (send_outcome : Member → option exn).

Lemma notify_one_run successful_dms failed_dms m :
  notify_one send_outcome (successful_dms, failed_dms) m =
  (attempts send_outcome [m],
   Returned (match send_outcome m with
             | None => (S successful_dms, failed_dms)
             | Some _ => (successful_dms, S failed_dms)
             end)).
Proof.
  unfold notify_one, send, attempts. simpl.
  destruct (send_outcome m) as [[]|]; reflexivity.
Qed.

Lemma fan_out_loop_run l successful_dms failed_dms :
  for_each l (successful_dms, failed_dms) (notify_one send_outcome) =
  (attempts send_outcome l,
   Returned (successful_dms + count_sent send_outcome l,
             failed_dms + count_failed send_outcome l)).
Proof.
  revert successful_dms failed_dms.
  induction l as [|m l IH]; intros s f.
  - py_simpl. unfold count_sent, count_failed. simpl.
    by rewrite !Nat.add_0_r.
  - cbn [for_each]. py_unfold. rewrite notify_one_run.
    unfold count_sent, count_failed. rewrite !filter_cons.
    destruct (send_outcome m) as [e|] eqn:Hm.
    + rewrite IH. rewrite decide_False by done. rewrite decide_True by done.
      unfold attempts, count_sent, count_failed. simpl. rewrite Hm.
      do 3 f_equal; lia.
    + rewrite IH. rewrite decide_True by done.
      rewrite decide_False by (intros H; by apply H).
      unfold attempts, count_sent, count_failed. simpl. rewrite Hm.
      do 3 f_equal; lia.
Qed.

(** The whole of [send_dm_notifications], in closed form. *)
Lemma send_dm_notifications_run guild member target_role :
  send_dm_notifications send_outcome guild member target_role =
  (FanOut member target_role
   :: Log INFO (SendingDMNotifications (display_name member))
   :: match members_to_notify guild member target_role with
      | [] => [Log INFO (NoMembersToNotify (display_name member))]
      | l => attempts send_outcome l
             ++ [Log INFO (DMSummary (count_sent send_outcome l)
                                     (count_failed send_outcome l))]
      end,
   Returned tt).
Proof.
  unfold send_dm_notifications.
  destruct (members_to_notify guild member target_role) as [|m l] eqn:Hl.
  - reflexivity.
  - py_unfold. rewrite fan_out_loop_run. reflexivity.
Qed.

Lemma attempts_cons m l :
  attempts send_outcome (m :: l) =
  DM m (send_outcome m) :: attempt_log m (send_outcome m)
  :: attempts send_outcome l.
Proof. reflexivity. Qed.

Lemma attempt_log_is_log m o : ∃ lvl msg,
  attempt_log m o = Log lvl msg ∧ ∀ name, msg ≠ WentOffline name.
Proof. destruct o as [[]|]; simpl; eauto 10. Qed.

Lemma dms_attempts l :
  dms (attempts send_outcome l) = (λ m, (m, send_outcome m)) <$> l.
Proof.
  induction l as [|m l IH]; [done|]. rewrite attempts_cons, fmap_cons, <-IH.
  destruct (attempt_log_is_log m (send_outcome m)) as (lvl & msg & -> & _).
  reflexivity.
Qed.

Lemma fan_outs_attempts l : fan_outs (attempts send_outcome l) = [].
Proof.
  induction l as [|m l IH]; [done|]. rewrite attempts_cons.
  destruct (attempt_log_is_log m (send_outcome m)) as (lvl & msg & -> & _).
  exact IH.
Qed.

Lemma length_dms_outcomes (l : list Member) :
  length (filter (λ d : Member * option exn, d.2 = None)
                 ((λ m, (m, send_outcome m)) <$> l)) = count_sent send_outcome l
  ∧ length (filter (λ d : Member * option exn, d.2 ≠ None)
                   ((λ m, (m, send_outcome m)) <$> l)) = count_failed send_outcome l.
Proof.
  unfold count_sent, count_failed.
  induction l as [|m l [IH1 IH2]]; [done|].
  rewrite fmap_cons, !filter_cons. simpl.
  repeat case_decide; simpl; try congruence; rewrite ?IH1, ?IH2; done.
Qed.

Lemma count_sent_failed l :
  count_sent send_outcome l + count_failed send_outcome l = length l.
Proof.
  unfold count_sent, count_failed.
  induction l as [|m l IH]; [done|].
  rewrite !filter_cons. repeat case_decide; simpl; try lia; congruence.
Qed.

(** The outbound messages of a fan-out: one attempt for each member to
    notify, in roster order. *)
Lemma send_dm_notifications_dms guild member target_role :
  dms (trace (send_dm_notifications send_outcome guild member target_role)) =
  (λ m, (m, send_outcome m)) <$> members_to_notify guild member target_role.
Proof.
  rewrite send_dm_notifications_run. unfold trace. cbn [fst].
  match goal with |- dms (_ :: _ :: ?t) = ?r => change (dms t = r) end.
  destruct (members_to_notify guild member target_role) as [|m l]; [done|].
  rewrite dms_app, dms_attempts. apply app_nil_r.
Qed.

Lemma send_dm_notifications_returns guild member target_role :
  result (send_dm_notifications send_outcome guild member target_role) = Returned tt.
Proof. by rewrite send_dm_notifications_run. Qed.

Lemma send_dm_notifications_fan_outs guild member target_role :
  fan_outs (trace (send_dm_notifications send_outcome guild member target_role)) =
  [(member, target_role)].
Proof.
  rewrite send_dm_notifications_run. unfold trace. cbn [fst].
  match goal with |- fan_outs (_ :: _ :: ?t) = _ =>
    change ((member, target_role) :: fan_outs t = [(member, target_role)]) end.
  f_equal.
  destruct (members_to_notify guild member target_role) as [|m l]; [done|].
  rewrite fan_outs_app, fan_outs_attempts. reflexivity.
Qed.

Lemma send_dm_notifications_tally guild member target_role :
  let t := trace (send_dm_notifications send_outcome guild member target_role) in
  let l := members_to_notify guild member target_role in
  delivered t = count_sent send_outcome l
  ∧ undelivered t = count_failed send_outcome l.
Proof.
  unfold delivered, undelivered. simpl.
  rewrite send_dm_notifications_dms. apply length_dms_outcomes.
Qed.

End FanOut.

(** ** The handlers in closed form *)

Section Handlers.

Context (send_outcome : Member → option exn).

Ltac enter_fan_out g a r :=
  pose proof (send_dm_notifications_dms send_outcome g a r) as Hdms;
  pose proof (send_dm_notifications_fan_outs send_outcome g a r) as Hfan;
  pose proof (send_dm_notifications_returns send_outcome g a r) as Hres;
  destruct (send_dm_notifications send_outcome g a r) as [t res];
  unfold trace, result in *; simpl in *; subst.

Ltac handler_cases self g b a :=
  unfold decision, tracked_role;
  destruct (decide (status b = status a)); [done|];
  destruct (bot a); [done|];
  destruct (target_roles self !! guild_id g) as [rid|]; [|done];
  simpl; destruct (get_role g rid) as [r|]; [|done];
  simpl; rewrite ?bool_decide_decide;
  destruct (decide (role_in r (roles a))); [|done];
  simpl; py_unfold;
  destruct (shows_online b), (shows_online a); simpl; try done;
  enter_fan_out g a r.

Lemma on_member_update_run self guild before after :
  let c := on_member_update send_outcome self guild before after in
  action_of (trace c) = decision self guild before after
  ∧ dms (trace c) = deliveries send_outcome guild (decision self guild before after)
  ∧ fan_outs (trace c) = entered (decision self guild before after)
  ∧ result c = Returned tt.
Proof.
  unfold on_member_update. handler_cases self guild before after.
  unfold action_of. simpl. by rewrite Hfan.
Qed.

Lemma on_presence_update_run self guild before after :
  let c := on_presence_update send_outcome self guild before after in
  action_of (trace c) = decision self guild before after
  ∧ dms (trace c) = deliveries send_outcome guild (decision self guild before after)
  ∧ fan_outs (trace c) = entered (decision self guild before after)
  ∧ result c = Returned tt.
Proof.
  unfold on_presence_update.
  destruct (decide (activity before ≠ activity after));
    handler_cases self guild before after;
    unfold action_of; simpl; by rewrite Hfan.
Qed.

End Handlers.

(** ** Events that are ignored *)

Lemma decision_untracked self guild before after :
  tracked_role self guild before after = None →
  decision self guild before after = NoAction.
Proof. unfold decision. by intros ->. Qed.

Lemma decision_notifies self guild before after member role :
  decision self guild before after = NotifyComingOnline member role →
  member = after ∧ tracked_role self guild before after = Some role
  ∧ shows_online before = false ∧ shows_online after = true.
Proof.
  unfold decision.
  destruct (tracked_role self guild before after) as [r|]; [|done].
  destruct (shows_online before), (shows_online after); simpl; try done.
  by intros [= <- <-].
Qed.

(** C2: a member-update or presence-update event whose status is unchanged,
    or whose member is a bot, results in NoAction in both handlers: no
    fan-out is entered and no message is sent, whatever the other fields of
    the event (display name, activity, roles) are. *)
Theorem unchanged_status_or_bot_is_no_action
    send_outcome self guild before after :
  status before = status after ∨ bot after = true →
  quiet (on_member_update send_outcome self guild before after)
  ∧ quiet (on_presence_update send_outcome self guild before after).
Proof.
  intros Hgate.
  assert (decision self guild before after = NoAction) as Hd.
  { apply decision_untracked. unfold tracked_role.
    destruct Hgate as [->| ->]; [by rewrite decide_True|].
    by destruct (decide _). }
  destruct (on_member_update_run send_outcome self guild before after)
    as (Ha & Hdm & Hf & _).
  destruct (on_presence_update_run send_outcome self guild before after)
    as (Ha' & Hdm' & Hf' & _).
  rewrite Hd in *. by repeat split.
Qed.

Lemma unchanged_status_or_bot_is_no_action_witness :
  quiet (on_member_update Scenario.all_receive Scenario.self Scenario.guild
           (mkMember 1 "old nick" false online (Some "chess") [Scenario.everyone])
           Scenario.u1)
  ∧ quiet (on_presence_update Scenario.u2_blocked Scenario.self Scenario.guild
             (Scenario.u 9 offline [Scenario.R]) Scenario.helper_bot).
Proof.
  split.
  - apply (unchanged_status_or_bot_is_no_action Scenario.all_receive
             Scenario.self Scenario.guild _ Scenario.u1).
    left. reflexivity.
  - apply (unchanged_status_or_bot_is_no_action Scenario.u2_blocked
             Scenario.self Scenario.guild _ Scenario.helper_bot).
    right. reflexivity.
Defined.

(** C10: the two handlers implement the same decision: on every event they
    reach the same action, enter the same fan-out with the same arguments,
    attempt the same direct messages and both return normally. *)
Theorem handlers_agree send_outcome self guild before after :
  let m := on_member_update send_outcome self guild before after in
  let p := on_presence_update send_outcome self guild before after in
  action_of (trace m) = action_of (trace p)
  ∧ fan_outs (trace m) = fan_outs (trace p)
  ∧ dms (trace m) = dms (trace p)
  ∧ result m = result p.
Proof.
  destruct (on_member_update_run send_outcome self guild before after)
    as (Ha & Hdm & Hf & Hr).
  destruct (on_presence_update_run send_outcome self guild before after)
    as (Ha' & Hdm' & Hf' & Hr').
  simpl. by rewrite Ha, Ha', Hdm, Hdm', Hf, Hf', Hr, Hr'.
Qed.

(** ** The per-member state machine *)

(** C4: in terms of the states Offline (offline, invisible) and Online
    (online, idle, dnd), a fan-out or a direct message happens only on
    Offline -> Online; Online -> Online and Offline -> Offline are without
    effect; Online -> Offline sends nothing and is LogOnly for a member
    tracked under the target role (NoAction for any other member). *)
Theorem only_coming_online_notifies send_outcome self guild before after :
  let m := on_member_update send_outcome self guild before after in
  let p := on_presence_update send_outcome self guild before after in
  let from := presence (status before) in
  let to := presence (status after) in
  (fan_outs (trace m) ≠ [] ∨ dms (trace m) ≠ []
   ∨ fan_outs (trace p) ≠ [] ∨ dms (trace p) ≠ [] →
   from = Offline ∧ to = Online)
  ∧ (from = to → quiet m ∧ quiet p)
  ∧ (from = Online → to = Offline →
     let logged_only :=
       match tracked_role self guild before after with
       | Some _ => LogOnly
       | None => NoAction
       end in
     (action_of (trace m) = logged_only ∧ fan_outs (trace m) = []
      ∧ dms (trace m) = [])
     ∧ (action_of (trace p) = logged_only ∧ fan_outs (trace p) = []
        ∧ dms (trace p) = [])).
Proof.
  destruct (on_member_update_run send_outcome self guild before after)
    as (Ha & Hdm & Hf & _).
  destruct (on_presence_update_run send_outcome self guild before after)
    as (Ha' & Hdm' & Hf' & _).
  simpl. unfold quiet. rewrite Ha, Ha', Hdm, Hdm', Hf, Hf'.
  clear Ha Ha' Hdm Hdm' Hf Hf'.
  rewrite <-shows_offline_presence, <-shows_online_presence.
  unfold decision.
  destruct (tracked_role self guild before after) as [r|];
    destruct (status before) eqn:Hb, (status after) eqn:Ha;
    unfold shows_online; rewrite ?Hb, ?Ha; simpl;
    repeat split; try done; intros; intuition congruence.
Qed.

Lemma only_coming_online_notifies_witness :
  action_of (trace (on_member_update Scenario.all_receive Scenario.self
                      Scenario.guild Scenario.u1
                      (Scenario.u 1 offline [Scenario.R]))) = LogOnly
  ∧ dms (trace (on_presence_update Scenario.all_receive Scenario.self
                  Scenario.guild Scenario.u1
                  (Scenario.u 1 offline [Scenario.R]))) = []
  ∧ quiet (on_member_update Scenario.all_receive Scenario.self
             Scenario.guild (Scenario.u 1 idle [Scenario.R])
             (Scenario.u 1 dnd [Scenario.R])).
Proof.
  destruct (only_coming_online_notifies Scenario.all_receive Scenario.self
              Scenario.guild Scenario.u1 (Scenario.u 1 offline [Scenario.R]))
    as (_ & _ & Hoff).
  destruct (Hoff eq_refl eq_refl) as ((Hm & _) & (_ & _ & Hp)).
  destruct (only_coming_online_notifies Scenario.all_receive Scenario.self
              Scenario.guild (Scenario.u 1 idle [Scenario.R])
              (Scenario.u 1 dnd [Scenario.R]))
    as (_ & Hsame & _).
  destruct (Hsame eq_refl) as (Hq & _).
  split; [exact Hm|]. split; [exact Hp|exact Hq].
Defined.

(** ** Guilds without a usable target role *)

(** C5: in a guild with no target role configured, and in a guild whose
    configured target role id does not resolve, every event results in
    NoAction and the handlers return normally; when the role does not
    resolve, an event that gets as far as the role check (status changed,
    not a bot) logs exactly one warning, and nothing at error level. *)
Theorem missing_target_role_is_no_action send_outcome self guild before after :
  let m := on_member_update send_outcome self guild before after in
  let p := on_presence_update send_outcome self guild before after in
  (target_roles self !! guild_id guild = None →
   (quiet m ∧ result m = Returned tt) ∧ (quiet p ∧ result p = Returned tt))
  ∧ (∀ target_role_id,
       target_roles self !! guild_id guild = Some target_role_id →
       get_role guild target_role_id = None →
       (quiet m ∧ result m = Returned tt ∧ logged ERROR (trace m) = [])
       ∧ (quiet p ∧ result p = Returned tt ∧ logged ERROR (trace p) = [])
       ∧ (status before ≠ status after → bot after = false →
          logged WARNING (trace m) =
            [TargetRoleNotFound target_role_id (guild_id guild)]
          ∧ logged WARNING (trace p) =
              [TargetRoleNotFound target_role_id (guild_id guild)])).
Proof.
  destruct (on_member_update_run send_outcome self guild before after)
    as (Ha & Hdm & Hf & Hr).
  destruct (on_presence_update_run send_outcome self guild before after)
    as (Ha' & Hdm' & Hf' & Hr').
  simpl. unfold quiet. rewrite Ha, Ha', Hdm, Hdm', Hf, Hf', Hr, Hr'.
  clear Ha Ha' Hdm Hdm' Hf Hf' Hr Hr'.
  split.
  - intros Hnone.
    rewrite (decision_untracked self guild before after); [done|].
    unfold tracked_role. rewrite Hnone. by repeat case_match.
  - intros rid Hrid Hrole.
    rewrite (decision_untracked self guild before after); cycle 1.
    { unfold tracked_role. rewrite Hrid. simpl. rewrite Hrole.
      by repeat case_match. }
    unfold on_member_update, on_presence_update. rewrite Hrid, Hrole.
    repeat split; try done;
      try (destruct (decide (activity before ≠ activity after));
           destruct (decide (status before = status after));
           destruct (bot after); done).
Qed.

Lemma missing_target_role_is_no_action_witness :
  quiet (on_member_update Scenario.all_receive Scenario.unconfigured
           Scenario.guild (Scenario.u 1 offline [Scenario.R]) Scenario.u1)
  ∧ quiet (on_presence_update Scenario.all_receive Scenario.self
             Scenario.guild_role_deleted (Scenario.u 1 offline [Scenario.R])
             Scenario.u1)
  ∧ logged WARNING
      (trace (on_presence_update Scenario.all_receive Scenario.self
                Scenario.guild_role_deleted (Scenario.u 1 offline [Scenario.R])
                Scenario.u1)) = [TargetRoleNotFound 100 1].
Proof.
  destruct (missing_target_role_is_no_action Scenario.all_receive
              Scenario.unconfigured Scenario.guild
              (Scenario.u 1 offline [Scenario.R]) Scenario.u1)
    as (Hnone & _).
  destruct (Hnone eq_refl) as ((Hq & _) & _).
  destruct (missing_target_role_is_no_action Scenario.all_receive
              Scenario.self Scenario.guild_role_deleted
              (Scenario.u 1 offline [Scenario.R]) Scenario.u1)
    as (_ & Hgone).
  destruct (Hgone 100%Z eq_refl eq_refl) as (_ & (Hq' & _) & Hwarn).
  destruct Hwarn as (_ & Hw); [discriminate|reflexivity|].
  split; [exact Hq|]. split; [exact Hq'|exact Hw].
Defined.

(** ** Who is notified *)

(** C6: the direct messages of a fan-out never go to the member the fan-out
    is about nor to a bot, whoever holds the target role; so the messages a
    handler sends never go to the member who came online nor to a bot. *)
Theorem recipients_exclude_trigger_and_bots
    send_outcome self guild before after member target_role :
  Forall (λ d, member_id d.1 ≠ member_id member ∧ bot d.1 = false)
         (dms (trace (send_dm_notifications send_outcome guild member target_role)))
  ∧ Forall (λ d, member_id d.1 ≠ member_id after ∧ bot d.1 = false)
           (dms (trace (on_member_update send_outcome self guild before after)))
  ∧ Forall (λ d, member_id d.1 ≠ member_id after ∧ bot d.1 = false)
           (dms (trace (on_presence_update send_outcome self guild before after))).
Proof.
  assert (∀ member role,
    Forall (λ d : Member * option exn,
              member_id d.1 ≠ member_id member ∧ bot d.1 = false)
           ((λ m, (m, send_outcome m)) <$> members_to_notify guild member role))
    as Hfilter.
  { intros mb r. rewrite Forall_fmap. apply Forall_forall. intros x Hx.
    apply list_elem_of_filter in Hx as [Hx _]. exact Hx. }
  split; [rewrite send_dm_notifications_dms; apply Hfilter|].
  destruct (on_member_update_run send_outcome self guild before after)
    as (_ & -> & _).
  destruct (on_presence_update_run send_outcome self guild before after)
    as (_ & -> & _).
  destruct (decision self guild before after) as [| |x r] eqn:Hd;
    simpl; try by split.
  apply decision_notifies in Hd as [-> _]. split; apply Hfilter.
Qed.

(** ** Coming online *)

(** C3: a non-bot member whose status goes from offline or invisible to any
    other status, and who holds the guild's configured (and resolvable)
    target role, results in NotifyComingOnline in both handlers: the
    fan-out is entered for that member and role and a direct message is
    attempted to exactly the other non-bot holders of the role. *)
Theorem coming_online_notifies_role_holders
    send_outcome self guild before after target_role_id target_role :
  bot after = false →
  status before ∈ [offline; invisible] →
  status after ∉ [offline; invisible] →
  target_roles self !! guild_id guild = Some target_role_id →
  get_role guild target_role_id = Some target_role →
  role_in target_role (roles after) →
  let m := on_member_update send_outcome self guild before after in
  let p := on_presence_update send_outcome self guild before after in
  let recipients :=
    filter (λ x, member_id x ≠ member_id after ∧ bot x = false)
           (filter (λ x, role_in target_role (roles x)) (members guild)) in
  (action_of (trace m) = NotifyComingOnline after target_role
   ∧ (dms (trace m)).*1 = recipients)
  ∧ (action_of (trace p) = NotifyComingOnline after target_role
     ∧ (dms (trace p)).*1 = recipients).
Proof.
  intros Hbot Hbefore Hafter Hrid Hrole Hheld.
  destruct (on_member_update_run send_outcome self guild before after)
    as (Ha & Hdm & _).
  destruct (on_presence_update_run send_outcome self guild before after)
    as (Ha' & Hdm' & _).
  simpl. rewrite Ha, Ha', Hdm, Hdm'.
  assert (decision self guild before after =
          NotifyComingOnline after target_role) as ->.
  { unfold decision, tracked_role.
    rewrite decide_False; cycle 1.
    { intros Heq. rewrite Heq in Hbefore. contradiction. }
    rewrite Hbot, Hrid. simpl. rewrite Hrole. simpl.
    rewrite decide_True by done.
    assert (shows_online before = false) as ->.
    { unfold shows_online. set_unfold.
      destruct Hbefore as [->|[->|[]]]; done. }
    assert (shows_online after = true) as ->; [|done].
    unfold shows_online. set_unfold.
    destruct (status after); try done; exfalso; apply Hafter; auto. }
  simpl. rewrite <-list_fmap_compose.
  assert ((fst ∘ (λ x, (x, send_outcome x))) <$>
            members_to_notify guild after target_role =
          members_to_notify guild after target_role) as ->; [|done].
  apply list_fmap_id.
Qed.

(** Scenario A with u1 going offline -> online: the recipients are u2 and u3
    (u1 itself and the bot holding R are left out, u4 does not hold R). *)
Lemma coming_online_notifies_role_holders_witness :
  action_of (trace (on_member_update Scenario.all_receive Scenario.self
                      Scenario.guild (Scenario.u 1 offline [Scenario.R])
                      Scenario.u1))
  = NotifyComingOnline Scenario.u1 Scenario.R
  ∧ (dms (trace (on_member_update Scenario.all_receive Scenario.self
                   Scenario.guild (Scenario.u 1 offline [Scenario.R])
                   Scenario.u1))).*1
    = [Scenario.u2; Scenario.u3].
Proof.
  refine (proj1 (coming_online_notifies_role_holders Scenario.all_receive
            Scenario.self Scenario.guild (Scenario.u 1 offline [Scenario.R])
            Scenario.u1 100%Z Scenario.R eq_refl _ _ eq_refl eq_refl _)).
  - by_decide.
  - by_decide.
  - by_decide.
Defined.

(** Scenario A as the specification words it, u1 going idle -> online in a
    guild whose target role is held by u1, u2, u3: both statuses are online
    statuses, so neither handler notifies anyone. *)
Lemma scenario_A_idle_to_online_counterexample :
  let m := on_member_update Scenario.all_receive Scenario.self Scenario.guild
             (Scenario.u 1 idle [Scenario.R]) Scenario.u1 in
  let p := on_presence_update Scenario.all_receive Scenario.self Scenario.guild
             (Scenario.u 1 idle [Scenario.R]) Scenario.u1 in
  (action_of (trace m) = NoAction ∧ dms (trace m) = [])
  ∧ (action_of (trace p) = NoAction ∧ dms (trace p) = [])
  ∧ ¬ (action_of (trace m) = NotifyComingOnline Scenario.u1 Scenario.R
       ∧ (dms (trace m)).*1 = [Scenario.u2; Scenario.u3])
  ∧ ¬ (action_of (trace p) = NotifyComingOnline Scenario.u1 Scenario.R
       ∧ (dms (trace p)).*1 = [Scenario.u2; Scenario.u3]).
Proof.
  split; [split; reflexivity|]. split; [split; reflexivity|].
  split; intros [Hnotify _]; vm_compute in Hnotify; discriminate Hnotify.
Qed.

(** ** The fan-out and its tally *)

Lemma summary_not_in_attempts send_outcome l s f :
  Log INFO (DMSummary s f) ∉ attempts send_outcome l.
Proof.
  induction l as [|m l IH]; [apply not_elem_of_nil|].
  rewrite attempts_cons, !not_elem_of_cons. split; [done|]. split; [|done].
  destruct (send_outcome m) as [[]|]; done.
Qed.

Lemma send_dm_notifications_recipients send_outcome guild member target_role :
  (dms (trace (send_dm_notifications send_outcome guild member target_role))).*1
  = members_to_notify guild member target_role.
Proof.
  rewrite send_dm_notifications_dms, <-list_fmap_compose. apply list_fmap_id.
Qed.

(** C7: the fan-out attempts one delivery for each member to notify, in
    roster order, whatever any of the attempts raises (Forbidden, another
    HTTP error or any other exception), and returns normally; with the
    guild roster holding each member once, no member is attempted twice;
    with nobody to notify it stops after two log records, having made no
    outbound call, with nothing sent and nothing failed. *)
Theorem fan_out_attempts_every_recipient_once
    send_outcome guild member target_role :
  let c := send_dm_notifications send_outcome guild member target_role in
  let l := members_to_notify guild member target_role in
  dms (trace c) = (λ m, (m, send_outcome m)) <$> l
  ∧ result c = Returned tt
  ∧ (NoDup (member_id <$> members guild) →
     NoDup (member_id <$> (dms (trace c)).*1))
  ∧ (l = [] →
     trace c = [FanOut member target_role;
                Log INFO (SendingDMNotifications (display_name member));
                Log INFO (NoMembersToNotify (display_name member))]
     ∧ dms (trace c) = []
     ∧ delivered (trace c) = 0 ∧ undelivered (trace c) = 0).
Proof.
  simpl. split; [apply send_dm_notifications_dms|].
  split; [apply send_dm_notifications_returns|]. split.
  - intros Hroster. rewrite send_dm_notifications_recipients.
    eapply sublist_NoDup; [exact Hroster|].
    apply fmap_sublist. unfold members_to_notify, role_members.
    etrans; apply sublist_filter.
  - intros Hl. unfold delivered, undelivered.
    rewrite send_dm_notifications_dms, send_dm_notifications_run, Hl. done.
Qed.

Lemma fan_out_attempts_every_recipient_once_witness :
  NoDup (member_id <$>
           (dms (trace (send_dm_notifications Scenario.u2_blocked
                          Scenario.guild Scenario.u1 Scenario.R))).*1)
  ∧ delivered (trace (send_dm_notifications Scenario.all_receive
                        Scenario.guild Scenario.u4 (mkRole 7 "empty"))) = 0.
Proof.
  destruct (fan_out_attempts_every_recipient_once Scenario.u2_blocked
              Scenario.guild Scenario.u1 Scenario.R) as (_ & _ & Hnodup & _).
  destruct (fan_out_attempts_every_recipient_once Scenario.all_receive
              Scenario.guild Scenario.u4 (mkRole 7 "empty"))
    as (_ & _ & _ & Hempty).
  split; [apply Hnodup; by_decide|].
  destruct (Hempty eq_refl) as (_ & _ & Hsent & _). exact Hsent.
Defined.

(** C9: the tally of a fan-out counts every member to notify exactly once:
    messages sent plus attempts failed equals the number of members to
    notify, one attempt each; the summary the fan-out logs, which it does
    whenever there is somebody to notify, carries these two counts. *)
Theorem fan_out_tally_counts_every_recipient
    send_outcome guild member target_role :
  let t := trace (send_dm_notifications send_outcome guild member target_role) in
  let l := members_to_notify guild member target_role in
  delivered t + undelivered t = length l
  ∧ length (dms t) = length l
  ∧ (∀ successful_dms failed_dms,
       Log INFO (DMSummary successful_dms failed_dms) ∈ t →
       successful_dms = delivered t ∧ failed_dms = undelivered t
       ∧ successful_dms + failed_dms = length l)
  ∧ (l ≠ [] → last t = Some (Log INFO (DMSummary (delivered t) (undelivered t)))).
Proof.
  simpl.
  destruct (send_dm_notifications_tally send_outcome guild member target_role)
    as [-> ->].
  rewrite send_dm_notifications_dms, length_fmap.
  split; [apply count_sent_failed|]. split; [done|].
  rewrite send_dm_notifications_run. unfold trace. cbn [fst].
  destruct (members_to_notify guild member target_role) as [|m l] eqn:Hl.
  - split; [|done]. intros s f Hin.
    rewrite !elem_of_cons, elem_of_nil in Hin.
    destruct Hin as [Hin|[Hin|[Hin|[]]]]; discriminate Hin.
  - split.
    + intros s f Hin.
      rewrite !elem_of_cons, elem_of_app, list_elem_of_singleton in Hin.
      destruct Hin as [?|[?|[Hin|Hin]]]; try done.
      * by apply summary_not_in_attempts in Hin.
      * injection Hin as -> ->. split; [done|]. split; [done|].
        apply count_sent_failed.
    + intros _. rewrite !last_cons, last_snoc. done.
Qed.

Lemma fan_out_tally_counts_every_recipient_witness :
  last (trace (send_dm_notifications Scenario.all_receive Scenario.guild
                 Scenario.u1 Scenario.R))
  = Some (Log INFO (DMSummary 2 0))
  ∧ 1 + 1 = length (members_to_notify Scenario.guild Scenario.u1 Scenario.R).
Proof.
  destruct (fan_out_tally_counts_every_recipient Scenario.u2_blocked
              Scenario.guild Scenario.u1 Scenario.R) as (_ & _ & Hin & _).
  destruct (fan_out_tally_counts_every_recipient Scenario.all_receive
              Scenario.guild Scenario.u1 Scenario.R) as (_ & _ & _ & Hlast).
  split; [apply Hlast; discriminate|].
  refine (proj2 (proj2 (Hin 1 1 _))). by_decide.
Defined.

(** C1 (as amended): a recipient whose delivery is refused with Forbidden
    is counted among the failed ones: with one recipient refused and one
    delivered the tally is 1 sent, 1 failed.  The refusal is logged as a
    warning, not as an error, and the other recipient is messaged whatever
    the order of the two. *)
Theorem blocked_recipient_is_counted_failed
    send_outcome guild member target_role u2 u3 :
  members_to_notify guild member target_role ≡ₚ [u2; u3] →
  send_outcome u2 = Some Forbidden →
  send_outcome u3 = None →
  let t := trace (send_dm_notifications send_outcome guild member target_role) in
  last t = Some (Log INFO (DMSummary 1 1))
  ∧ delivered t = 1 ∧ undelivered t = 1
  ∧ (u3, None) ∈ dms t ∧ (u2, Some Forbidden) ∈ dms t
  ∧ logged WARNING t = [CannotSendDM (display_name u2)]
  ∧ logged ERROR t = [].
Proof.
  intros Hl Hu2 Hu3. simpl.
  destruct (send_dm_notifications_tally send_outcome guild member target_role)
    as [-> ->].
  rewrite send_dm_notifications_dms, send_dm_notifications_run.
  unfold trace. cbn [fst].
  symmetry in Hl. apply Permutation_length_2_inv in Hl as [-> | ->];
    rewrite !attempts_cons; unfold count_sent, count_failed;
    rewrite !filter_cons, !filter_nil, ?Hu2, ?Hu3; simpl.
  all: repeat split; try done; rewrite Hu2, Hu3, !elem_of_cons; auto.
Qed.

Lemma blocked_recipient_is_counted_failed_witness :
  last (trace (send_dm_notifications Scenario.u2_blocked Scenario.guild
                 Scenario.u1 Scenario.R))
  = Some (Log INFO (DMSummary 1 1)).
Proof.
  refine (proj1 (blocked_recipient_is_counted_failed Scenario.u2_blocked
            Scenario.guild Scenario.u1 Scenario.R Scenario.u2 Scenario.u3
            _ eq_refl eq_refl)).
  reflexivity.
Defined.

(** Scenario D on the code: u2 refuses direct messages, u3 receives.  The
    fan-out messages both and logs the summary "1 sent, 1 failed". *)
Lemma scenario_D_counterexample :
  let t := trace (send_dm_notifications Scenario.u2_blocked Scenario.guild
                    Scenario.u1 Scenario.R) in
  dms t = [(Scenario.u2, Some Forbidden); (Scenario.u3, None)]
  ∧ logged INFO t = [SendingDMNotifications "user"; DMSent "user"; DMSummary 1 1]
  ∧ ¬ (delivered t = 1 ∧ undelivered t = 0)
  ∧ Log INFO (DMSummary 1 0) ∉ t.
Proof.
  split; [reflexivity|]. split; [reflexivity|]. split.
  - intros [_ Hfailed]. vm_compute in Hfailed. discriminate Hfailed.
  - by_decide.
Qed.

(** ** Start-up bookkeeping *)

Lemma for_each_returns {A S} (body : S → A → Py S) (l : list A) (s : S) :
  (∀ s x, ∃ t s', body s x = (t, Returned s')) →
  ∃ t s', for_each l s body = (t, Returned s').
Proof.
  intros Hbody. revert s. induction l as [|x l IH]; intros s.
  - by exists [], s.
  - cbn [for_each]. destruct (Hbody s x) as (t & s' & ->).
    destruct (IH s') as (t' & s'' & Hrest).
    exists (t ++ t'), s''. py_unfold. by rewrite Hrest.
Qed.

Lemma on_ready_guild_run self guild :
  ∃ t, on_ready_guild self guild =
       (t, Returned (mkBot (notification_channels self) (target_roles self)
                           (<[guild_id guild := online_ids guild]>
                              (previous_online self)))).
Proof.
  unfold on_ready_guild.
  match goal with |- context [for_each (members guild) ?s ?body] =>
    destruct (for_each_returns body (members guild) s) as (t1 & [on off] & ->)
  end.
  { intros [on off] x. eexists _, _. reflexivity. }
  destruct (target_roles self !! guild_id guild) as [rid|];
    [destruct (get_role guild rid) as [r|]|].
  - match goal with |- context [for_each ?l tt ?body] =>
      destruct (for_each_returns body l tt) as (t2 & [] & ->)
    end.
    { intros [] [i x]. eexists _, _. reflexivity. }
    eexists. reflexivity.
  - eexists. reflexivity.
  - eexists. reflexivity.
Qed.

Lemma on_ready_loop_run guilds self :
  ∃ t, for_each guilds self on_ready_guild =
       (t, Returned (mkBot (notification_channels self) (target_roles self)
                           (tracked_after guilds (previous_online self)))).
Proof.
  revert self. induction guilds as [|g guilds IH]; intros self.
  - exists []. by destruct self.
  - cbn [for_each]. destruct (on_ready_guild_run self g) as (t & ->).
    py_unfold.
    match goal with |- context [for_each guilds ?s _] =>
      destruct (IH s) as (t' & ->) end.
    eexists. reflexivity.
Qed.

Lemma on_ready_run change_presence_outcome tree_sync_outcome self guilds :
  ∃ t, on_ready change_presence_outcome tree_sync_outcome self guilds =
       (t, Returned (mkBot (notification_channels self) (target_roles self)
                           (tracked_after guilds (previous_online self)))).
Proof.
  unfold on_ready, change_presence, tree_sync.
  destruct (on_ready_loop_run guilds self) as (t & Hloop).
  destruct change_presence_outcome as [e|], tree_sync_outcome as [e'|n];
    py_unfold; simpl; rewrite Hloop; eexists; reflexivity.
Qed.

Lemma tracked_after_other guilds po k :
  k ∉ guild_id <$> guilds → tracked_after guilds po !! k = po !! k.
Proof.
  revert po. induction guilds as [|g guilds IH]; intros po Hk; [done|].
  rewrite fmap_cons, not_elem_of_cons in Hk. destruct Hk as [Hne Hk].
  unfold tracked_after in *. simpl. rewrite IH by done.
  by rewrite lookup_insert_ne.
Qed.

Lemma tracked_after_lookup guilds po guild :
  NoDup (guild_id <$> guilds) → guild ∈ guilds →
  tracked_after guilds po !! guild_id guild = Some (online_ids guild).
Proof.
  revert po. induction guilds as [|g guilds IH]; intros po Hnodup Hin.
  - by apply elem_of_nil in Hin.
  - rewrite fmap_cons, NoDup_cons in Hnodup. destruct Hnodup as [Hfresh Hnodup].
    apply elem_of_cons in Hin as [->|Hin].
    + change (tracked_after (g :: guilds) po)
        with (tracked_after guilds (<[guild_id g := online_ids g]> po)).
      rewrite tracked_after_other by done. apply lookup_insert_eq.
    + change (tracked_after (g :: guilds) po)
        with (tracked_after guilds (<[guild_id g := online_ids g]> po)).
      by apply IH.
Qed.

Lemma elem_of_online_ids guild x :
  x ∈ online_ids guild ↔
  ∃ m, m ∈ members guild ∧ member_id m = x ∧ bot m = false
       ∧ status m ∈ [online; idle; dnd].
Proof.
  unfold online_ids, get_online_members.
  rewrite elem_of_list_to_set, list_elem_of_fmap. split.
  - intros (m & -> & Hm). apply list_elem_of_filter in Hm as [(Hb & Hs1 & Hs2) Hm].
    exists m. repeat split; try done.
    destruct (status m); try done; rewrite !elem_of_cons; auto.
  - intros (m & Hm & <- & Hb & Hs). exists m. split; [done|].
    apply list_elem_of_filter. split; [|done].
    split; [done|].
    split; intros Heq; rewrite Heq, !elem_of_cons, elem_of_nil in Hs;
      intuition discriminate.
Qed.

(** C8 (as amended): after [on_ready], which always completes, the entry
    of [previous_online] for each guild the bot is in is the set of ids of
    the guild's members that are not bots and whose status is online, idle
    or dnd. *)
Theorem previous_online_holds_online_non_bots
    change_presence_outcome tree_sync_outcome self guilds :
  NoDup (guild_id <$> guilds) →
  ∃ self',
    result (on_ready change_presence_outcome tree_sync_outcome self guilds)
    = Returned self'
    ∧ ∀ guild, guild ∈ guilds →
        ∃ ids, previous_online self' !! guild_id guild = Some ids
          ∧ ∀ x, x ∈ ids ↔
                 ∃ m, m ∈ members guild ∧ member_id m = x ∧ bot m = false
                      ∧ status m ∈ [online; idle; dnd].
Proof.
  intros Hnodup.
  destruct (on_ready_run change_presence_outcome tree_sync_outcome self guilds)
    as (t & ->).
  eexists. split; [reflexivity|]. intros guild Hin. simpl.
  exists (online_ids guild). split; [by apply tracked_after_lookup|].
  apply elem_of_online_ids.
Qed.

Lemma previous_online_holds_online_non_bots_witness :
  ∃ self' ids,
    result (on_ready None (inr 3) Scenario.self [Scenario.guild]) = Returned self'
    ∧ previous_online self' !! 1%Z = Some ids
    ∧ 2%Z ∈ ids.
Proof.
  destruct (previous_online_holds_online_non_bots None (inr 3) Scenario.self
              [Scenario.guild]) as (self' & Hrun & Hguilds); [by_decide|].
  destruct (Hguilds Scenario.guild) as (ids & Hids & Hmem);
    [apply elem_of_cons; left; reflexivity|].
  exists self', ids. split; [exact Hrun|]. split; [exact Hids|].
  apply Hmem. exists Scenario.u2.
  split; [by_decide|]. split; [reflexivity|]. split; [reflexivity|by_decide].
Defined.

(** An online bot in the roster: [on_ready] leaves its id out of the
    guild's tracked set, while the set as the data model words it holds
    it. *)
Lemma previous_online_omits_online_bot_counterexample :
  ∃ self',
    result (on_ready None (inr 3) Scenario.self [Scenario.guild]) = Returned self'
    ∧ Scenario.helper_bot ∈ members Scenario.guild
    ∧ status Scenario.helper_bot = online
    ∧ member_id Scenario.helper_bot ∈ Spec.previous_online_set Scenario.guild
    ∧ (previous_online self' !! guild_id Scenario.guild)
      = Some (online_ids Scenario.guild)
    ∧ (member_id Scenario.helper_bot ∉ online_ids Scenario.guild)
    ∧ (previous_online self' !! guild_id Scenario.guild)
      ≠ Some (Spec.previous_online_set Scenario.guild).
Proof.
  destruct (on_ready_run None (inr 3) Scenario.self [Scenario.guild])
    as (t & Hrun).
  eexists. rewrite Hrun. split; [reflexivity|]. cbn [previous_online].
  assert (tracked_after [Scenario.guild] (previous_online Scenario.self)
            !! guild_id Scenario.guild = Some (online_ids Scenario.guild))
    as ->.
  { apply tracked_after_lookup; [by_decide|]. apply elem_of_cons. by left. }
  assert (member_id Scenario.helper_bot ∈ Spec.previous_online_set Scenario.guild)
    as Hclaimed by by_decide.
  assert (member_id Scenario.helper_bot ∉ online_ids Scenario.guild)
    as Hstored by by_decide.
  split; [by_decide|]. split; [reflexivity|]. split; [exact Hclaimed|].
  split; [reflexivity|]. split; [exact Hstored|].
  intros Heq. apply (inj Some) in Heq. apply Hstored. rewrite Heq.
  exact Hclaimed.
Qed.

(** ** The settings file *)

Ltac cmd_unfold :=
  unfold mbind, mret, Cmd_bind, Cmd_ret, cmd_bind, cmd_ret, cmd_try_except,
    cmd_log, cmd_raise, call, get_tracker, get_file, put_file,
    assign_notification_channels, assign_target_roles, events, world_after,
    outcome.

Section Settings.

Context (api : ApiCall → option exn).
Context (py_str : Z → string) (py_int : string → option Z).

(** [save_settings] in closed form, by where the write fails. *)
Lemma save_settings_run w :
  save_settings api py_str w =
  let data := saved_data py_str (tracker w) in
  match api (open_settings WriteMode) with
  | Some e =>
      ([Called (open_settings WriteMode) (Some e);
        Logged ERROR (ErrorSavingSettings e)], w, Returned tt)
  | None =>
      match api (json_dump data) with
      | Some e =>
          ([Called (open_settings WriteMode) None;
            Called (json_dump data) (Some e);
            Logged ERROR (ErrorSavingSettings e)],
           mkWorld (tracker w) Unreadable, Returned tt)
      | None =>
          ([Called (open_settings WriteMode) None;
            Called (json_dump data) None;
            Logged INFO SettingsSaved],
           mkWorld (tracker w) (Holds data), Returned tt)
      end
  end.
Proof.
  unfold save_settings, open_for_writing, dump, saved_data. cmd_unfold.
  cbn -[dump_dict].
  destruct (api (open_settings WriteMode)) as [e|]; [reflexivity|].
  cbn -[dump_dict].
  destruct (api (json_dump _)) as [e|]; reflexivity.
Qed.

Lemma int_keys_dumped (l : list (Z * Z)) acc w :
  (∀ z, py_int (py_str z) = Some z) →
  int_keys py_int ((λ kv, (py_str kv.1, kv.2)) <$> l) acc w =
  ([], w, Returned (foldl (λ d kv, <[kv.1 := kv.2]> d) acc l)).
Proof.
  intros Hint. revert acc. induction l as [|[k v] l IH]; intros acc; [done|].
  simpl. rewrite Hint. apply IH.
Qed.

Lemma foldl_insert_list_to_map (l : list (Z * Z)) :
  foldl (λ d kv, <[kv.1 := kv.2]> d) (∅ : gmap Z Z) l = list_to_map (reverse l).
Proof.
  induction l as [|kv l IH] using rev_ind; [done|].
  rewrite foldl_snoc, reverse_snoc, IH. reflexivity.
Qed.

Lemma int_keys_dump_dict (d : gmap Z Z) w :
  (∀ z, py_int (py_str z) = Some z) →
  int_keys py_int (dump_dict py_str d) ∅ w = ([], w, Returned d).
Proof.
  intros Hint. unfold dump_dict. rewrite int_keys_dumped by done.
  rewrite foldl_insert_list_to_map. do 2 f_equal.
  rewrite <-(list_to_map_to_list d) at 2.
  apply list_to_map_proper; [|apply reverse_Permutation].
  rewrite fmap_reverse, reverse_Permutation. apply NoDup_fst_map_to_list.
Qed.

(** X1: [save_settings] never raises and never changes the bot.  If the
    file cannot be opened it is left as it was; if it was opened and the
    dump fails, it is left unreadable whatever it held before; otherwise it
    holds the bot's two dictionaries. *)
Theorem save_settings_is_contained w :
  let r := save_settings api py_str w in
  outcome r = Returned tt
  ∧ tracker (world_after r) = tracker w
  ∧ settings_file (world_after r) =
      match api (open_settings WriteMode),
            api (json_dump (saved_data py_str (tracker w))) with
      | Some _, _ => settings_file w
      | None, Some _ => Unreadable
      | None, None => Holds (saved_data py_str (tracker w))
      end
  ∧ (cmd_errors (events r) = [] ↔
     api (open_settings WriteMode) = None
     ∧ api (json_dump (saved_data py_str (tracker w))) = None).
Proof.
  simpl. rewrite save_settings_run. cbv zeta.
  destruct (api (open_settings WriteMode)) as [e|];
    [|destruct (api (json_dump _)) as [e|]];
    destruct w as [self f]; simpl; repeat split; try done;
    intros; intuition discriminate.
Qed.

(** X2: a bot started on the file a successful [save_settings] wrote has the
    saved notification channels and target roles, whatever it was saved
    from; it logs the number of channels and no error. *)
Theorem settings_survive_restart w :
  (∀ z, py_int (py_str z) = Some z) →
  api (open_settings WriteMode) = None →
  api (json_dump (saved_data py_str (tracker w))) = None →
  api (open_settings ReadMode) = None →
  let saved := world_after (save_settings api py_str w) in
  let r := tracker_init api py_int saved in
  notification_channels (tracker (world_after r)) = notification_channels (tracker w)
  ∧ target_roles (tracker (world_after r)) = target_roles (tracker w)
  ∧ previous_online (tracker (world_after r)) = ∅
  ∧ settings_file (world_after r) = settings_file saved
  ∧ outcome r = Returned tt
  ∧ events r = [Called (open_settings ReadMode) None;
                Logged INFO (LoadedSettings (size (notification_channels (tracker w))))].
Proof.
  intros Hint Hopen Hdump Hread. simpl.
  rewrite save_settings_run. cbv zeta. rewrite Hopen, Hdump.
  unfold tracker_init, load_settings, json_load, saved_data. cmd_unfold.
  cbn -[int_keys dump_dict]. rewrite Hread. cbn -[int_keys dump_dict].
  rewrite int_keys_dump_dict by done. cbn -[int_keys dump_dict].
  rewrite int_keys_dump_dict by done. cbn -[int_keys dump_dict].
  done.
Qed.

End Settings.

Lemma decimal_int_str z :
  Deployment.decimal_int (Deployment.decimal_str z) = Some z.
Proof.
  unfold Deployment.decimal_int, Deployment.decimal_str.
  rewrite NilZero.isi.
  - simpl. by rewrite DecimalZ.of_to.
  - destruct z; simpl; try done. intros [= H]. by apply Unsigned.to_uint_nonnil in H.
  - destruct z; simpl; try done. intros [= H]. by apply Unsigned.to_uint_nonnil in H.
Qed.

Section Loading.

Context (api : ApiCall → option exn).
Context (py_str : Z → string) (py_int : string → option Z).

Lemma int_keys_run items acc w :
  int_keys py_int items acc w =
  ([], w, match parsed_keys py_int items acc with
          | Some d => Returned d
          | None => Raised OtherException
          end).
Proof.
  revert acc. induction items as [|[k v] items IH]; intros acc; [done|].
  simpl. destruct (py_int k); [apply IH|done].
Qed.

(** [load_settings] in closed form. *)
Lemma load_settings_run w :
  load_settings api py_int w =
  let self := tracker w in
  let failed e :=
    ([Called (open_settings ReadMode) None; Logged ERROR (ErrorLoadingSettings e)]
     : list Event) in
  match settings_file w with
  | Absent => ([], w, Returned tt)
  | f =>
    match api (open_settings ReadMode) with
    | Some e =>
        ([Called (open_settings ReadMode) (Some e);
          Logged ERROR (ErrorLoadingSettings e)], w, Returned tt)
    | None =>
      match f with
      | Holds data =>
        match parsed_keys py_int (default [] (json_notification_channels data)) ∅ with
        | None => (failed OtherException, w, Returned tt)
        | Some channels =>
          match parsed_keys py_int (default [] (json_target_roles data)) ∅ with
          | None =>
              (failed OtherException,
               mkWorld (mkBot channels (target_roles self) (previous_online self))
                       (settings_file w),
               Returned tt)
          | Some targets =>
              ([Called (open_settings ReadMode) None;
                Logged INFO (LoadedSettings (size channels))],
               mkWorld (mkBot channels targets (previous_online self))
                       (settings_file w),
               Returned tt)
          end
        end
      | _ => (failed OtherException, w, Returned tt)
      end
    end
  end.
Proof.
  unfold load_settings, json_load. cmd_unfold. destruct w as [self f].
  cbn -[int_keys]. destruct f as [| |data]; [done| |].
  - destruct (api (open_settings ReadMode)); done.
  - destruct (api (open_settings ReadMode)); [done|]. cbn -[int_keys].
    rewrite int_keys_run.
    destruct (parsed_keys py_int (default [] (json_notification_channels data)) ∅);
      [|done].
    cbn -[int_keys]. rewrite int_keys_run.
    destruct (parsed_keys py_int (default [] (json_target_roles data)) ∅); done.
Qed.

(** X3: [load_settings] never raises and never touches the file or
    [previous_online].  With no settings file it does nothing at all; with
    a file that cannot be opened or parsed it keeps the settings in memory
    and logs one error. *)
Theorem load_settings_keeps_settings_on_failure w :
  let r := load_settings api py_int w in
  outcome r = Returned tt
  ∧ settings_file (world_after r) = settings_file w
  ∧ previous_online (tracker (world_after r)) = previous_online (tracker w)
  ∧ (settings_file w = Absent → events r = [] ∧ world_after r = w)
  ∧ (settings_file w = Unreadable
     ∨ settings_file w ≠ Absent ∧ api (open_settings ReadMode) ≠ None →
     world_after r = w ∧ length (cmd_errors (events r)) = 1).
Proof.
  simpl. rewrite load_settings_run. cbv zeta. destruct w as [self f].
  destruct f as [| |data]; simpl.
  - repeat split; intros; try done; intuition congruence.
  - destruct (api (open_settings ReadMode));
      repeat split; intros; try done; intuition congruence.
  - destruct (api (open_settings ReadMode)) as [e|]; simpl.
    { repeat split; intros; try done; intuition congruence. }
    destruct (parsed_keys py_int _ ∅); simpl;
      [destruct (parsed_keys py_int _ ∅); simpl|];
      repeat split; intros; try done; intuition congruence.
Qed.

(** X4: a load that succeeds replaces both dictionaries by what the file
    holds, a section missing from the file counting as empty: no entry that
    was only in memory survives. *)
Theorem load_settings_replaces_settings w data channels targets :
  settings_file w = Holds data →
  api (open_settings ReadMode) = None →
  parsed_keys py_int (default [] (json_notification_channels data)) ∅ = Some channels →
  parsed_keys py_int (default [] (json_target_roles data)) ∅ = Some targets →
  let r := load_settings api py_int w in
  tracker (world_after r) = mkBot channels targets (previous_online (tracker w))
  ∧ cmd_errors (events r) = []
  ∧ (json_notification_channels data = None → channels = ∅)
  ∧ (json_target_roles data = None → targets = ∅).
Proof.
  intros Hf Hopen Hc Ht. simpl. rewrite load_settings_run. cbv zeta.
  rewrite Hf, Hopen, Hc, Ht. simpl. repeat split; try done.
  - intros Hnone. rewrite Hnone in Hc. simpl in Hc. congruence.
  - intros Hnone. rewrite Hnone in Ht. simpl in Ht. congruence.
Qed.

(** X5: loading is not atomic.  When every key of the notification-channel
    section is an integer literal and some key of the target-role section
    is not, the channels are already replaced when the error is caught: the
    bot ends with the file's channels and its old target roles.  When a
    channel key is bad, nothing is replaced. *)
Theorem load_settings_is_not_atomic w data :
  settings_file w = Holds data →
  api (open_settings ReadMode) = None →
  let r := load_settings api py_int w in
  (∀ channels,
     parsed_keys py_int (default [] (json_notification_channels data)) ∅ = Some channels →
     parsed_keys py_int (default [] (json_target_roles data)) ∅ = None →
     tracker (world_after r) =
       mkBot channels (target_roles (tracker w)) (previous_online (tracker w))
     ∧ cmd_errors (events r) = [ErrorLoadingSettings OtherException]
     ∧ outcome r = Returned tt)
  ∧ (parsed_keys py_int (default [] (json_notification_channels data)) ∅ = None →
     world_after r = w
     ∧ cmd_errors (events r) = [ErrorLoadingSettings OtherException]
     ∧ outcome r = Returned tt).
Proof.
  intros Hf Hopen. simpl. rewrite load_settings_run. cbv zeta.
  rewrite Hf, Hopen. split.
  - intros channels -> ->. done.
  - intros ->. done.
Qed.

End Loading.

(** ** The configuration commands *)

Lemma handlers_read_target_role send_outcome self1 self2 guild before after :
  target_roles self1 !! guild_id guild = target_roles self2 !! guild_id guild →
  on_member_update send_outcome self1 guild before after
  = on_member_update send_outcome self2 guild before after
  ∧ on_presence_update send_outcome self1 guild before after
    = on_presence_update send_outcome self2 guild before after.
Proof. unfold on_member_update, on_presence_update. by intros ->. Qed.

Lemma decision_coming_online self guild before after target_role_id target_role :
  bot after = false →
  status before ∈ [offline; invisible] →
  status after ∉ [offline; invisible] →
  target_roles self !! guild_id guild = Some target_role_id →
  get_role guild target_role_id = Some target_role →
  role_in target_role (roles after) →
  decision self guild before after = NotifyComingOnline after target_role.
Proof.
  intros Hbot Hbefore Hafter Hrid Hrole Hheld.
  unfold decision, tracked_role.
  rewrite decide_False; cycle 1.
  { intros Heq. rewrite Heq in Hbefore. contradiction. }
  rewrite Hbot, Hrid. simpl. rewrite Hrole. simpl.
  rewrite decide_True by done.
  assert (shows_online before = false) as ->.
  { unfold shows_online. rewrite !elem_of_cons, elem_of_nil in Hbefore.
    destruct Hbefore as [->|[->|[]]]; done. }
  assert (shows_online after = true) as ->; [|done].
  unfold shows_online. rewrite !elem_of_cons, elem_of_nil in Hafter.
  destruct (status after); try done; exfalso; apply Hafter; auto.
Qed.

Section CommandFacts.

Context (api : ApiCall → option exn).
Context (py_str : Z → string).
Context (get_channel : Z → option TextChannel).

Ltac destruct_api :=
  repeat match goal with
         | |- context [api ?c] => destruct (api c) eqn:?; simpl
         end.

Ltac break_hyps :=
  repeat match goal with
         | H : _ ∧ _ |- _ => destruct H
         | H : ∃ _, _ |- _ => destruct H
         end.

Ltac destruct_exn :=
  repeat match goal with
         | |- context [is_Forbidden ?e] => is_var e; destruct e; simpl
         end.

Ltac run_command :=
  cmd_unfold; cbn -[save_settings dump_dict saved_data];
  rewrite ?save_settings_run; cbv zeta.

(** X6: a configuration command refused for lack of permission
    (Manage Roles for /setrole, /removerole and /testnotify, Administrator
    for /setchannel and /removechannel), and /setchannel refused because
    the bot may not write to the channel, changes neither the bot nor the
    settings file; all it does is answer the interaction, ephemerally. *)
Theorem refused_commands_change_nothing interaction channel role w :
  (manage_roles (user_permissions interaction) = false →
   refuses api w ManageRolesRequired
     (setrole_command api py_str interaction role w)
   ∧ refuses api w ManageRolesRequired
       (removerole_command api py_str interaction w)
   ∧ refuses api w ManageRolesRequired
       (testnotify_command api get_channel interaction w))
  ∧ (administrator (user_permissions interaction) = false →
     refuses api w AdministratorRequired
       (setchannel_command api py_str interaction channel w)
     ∧ refuses api w AdministratorRequired
         (removechannel_command api py_str interaction w))
  ∧ (administrator (user_permissions interaction) = true →
     bot_can_send channel = false →
     refuses api w (CannotSendIn (channel_id channel))
       (setchannel_command api py_str interaction channel w)).
Proof.
  unfold refuses, setrole_command, removerole_command, testnotify_command,
    setchannel_command, removechannel_command.
  split; [|split].
  - intros ->. run_command.
    destruct (api (response_send_message ManageRolesRequired true)) eqn:Hr;
      simpl; destruct_api; by destruct w.
  - intros ->. run_command.
    destruct (api (response_send_message AdministratorRequired true)) eqn:Hr;
      simpl; destruct_api; by destruct w.
  - intros -> ->. run_command.
    destruct (api (response_send_message (CannotSendIn _) true)) eqn:Hr;
      simpl; destruct_api; by destruct w.
Qed.

Lemma setrole_tracker interaction role w :
  manage_roles (user_permissions interaction) = true →
  tracker (world_after (setrole_command api py_str interaction role w))
  = mkBot (notification_channels (tracker w))
          (<[guild_id (interaction_guild interaction) := role_id role]>
             (target_roles (tracker w)))
          (previous_online (tracker w)).
Proof.
  intros Hperm. unfold setrole_command. rewrite Hperm. run_command.
  destruct_api; done.
Qed.

Lemma removerole_tracker interaction w :
  manage_roles (user_permissions interaction) = true →
  tracker (world_after (removerole_command api py_str interaction w))
  = mkBot (notification_channels (tracker w))
          (delete (guild_id (interaction_guild interaction))
                  (target_roles (tracker w)))
          (previous_online (tracker w)).
Proof.
  intros Hperm. unfold removerole_command. rewrite Hperm. run_command.
  destruct (target_roles (tracker w) !! guild_id (interaction_guild interaction))
    eqn:Hset; run_command; destruct_api; try done;
    rewrite delete_id by done; by destruct w as [[] ?].
Qed.

(** X7: /setrole by a member with Manage Roles sets the guild's target role
    in memory before it saves or answers, so the assignment stands whatever
    the save and the answers do; other guilds' target roles, the
    notification channels and [previous_online] are untouched.  A save that
    fails is not reported: if the confirmation can be sent, it is sent and
    the command returns normally. *)
Theorem setrole_commits_before_answering interaction role w :
  manage_roles (user_permissions interaction) = true →
  let r := setrole_command api py_str interaction role w in
  let gid := guild_id (interaction_guild interaction) in
  let confirmation :=
    response_send_message
      (TargetRoleSet (role_name role) (role_id role)
         (length (role_members (interaction_guild interaction) role))) true in
  tracker (world_after r) =
    mkBot (notification_channels (tracker w))
          (<[gid := role_id role]> (target_roles (tracker w)))
          (previous_online (tracker w))
  ∧ (∀ g, g ≠ gid →
       target_roles (tracker (world_after r)) !! g = target_roles (tracker w) !! g)
  ∧ (api confirmation = None →
     outcome r = Returned tt ∧ last (calls (events r)) = Some confirmation)
  ∧ (api (open_settings WriteMode) = None →
     api (json_dump (saved_data py_str (tracker (world_after r)))) = None →
     settings_file (world_after r) =
       Holds (saved_data py_str (tracker (world_after r)))).
Proof.
  intros Hperm. simpl. rewrite (setrole_tracker _ _ _ Hperm).
  split; [done|]. split.
  { intros g Hg. simpl. by rewrite lookup_insert_ne. }
  unfold setrole_command. rewrite Hperm. run_command. cbn [tracker]. split.
  - intros Hconfirm. rewrite Hconfirm. destruct_api; done.
  - intros Hopen Hdump. rewrite Hopen, Hdump. simpl. destruct_api; done.
Qed.

(** X8: after a /setrole that was allowed, a member of that guild who is
    not a bot, holds the role and goes from offline or invisible to any
    other status is announced by both handlers to the other non-bot holders
    of the role, provided the role is one of the guild's roles. *)
Theorem setrole_then_coming_online_notifies
    send_outcome interaction role w before after :
  manage_roles (user_permissions interaction) = true →
  get_role (interaction_guild interaction) (role_id role) = Some role →
  bot after = false →
  status before ∈ [offline; invisible] →
  status after ∉ [offline; invisible] →
  role_in role (roles after) →
  let self := tracker (world_after (setrole_command api py_str interaction role w)) in
  let guild := interaction_guild interaction in
  let m := on_member_update send_outcome self guild before after in
  let p := on_presence_update send_outcome self guild before after in
  (action_of (trace m) = NotifyComingOnline after role
   ∧ (dms (trace m)).*1 = members_to_notify guild after role)
  ∧ (action_of (trace p) = NotifyComingOnline after role
     ∧ (dms (trace p)).*1 = members_to_notify guild after role).
Proof.
  intros Hperm Hrole Hbot Hbefore Hafter Hheld. simpl.
  rewrite (setrole_tracker _ _ _ Hperm).
  set (self := mkBot _ _ _).
  assert (decision self (interaction_guild interaction) before after
          = NotifyComingOnline after role) as Hd.
  { eapply decision_coming_online; try done. apply lookup_insert_eq. }
  destruct (on_member_update_run send_outcome self
              (interaction_guild interaction) before after) as (-> & -> & _).
  destruct (on_presence_update_run send_outcome self
              (interaction_guild interaction) before after) as (-> & -> & _).
  rewrite Hd. simpl. rewrite <-list_fmap_compose.
  by rewrite (list_fmap_id (members_to_notify _ _ _)).
Qed.

(** X9: after a /removerole by a member with Manage Roles the guild has no
    target role, whatever the save and the answers did, so no event of that
    guild leads either handler to notify or log a transition; the target
    roles of other guilds stay as they were. *)
Theorem removerole_silences_the_guild
    send_outcome interaction w before after :
  manage_roles (user_permissions interaction) = true →
  let self := tracker (world_after (removerole_command api py_str interaction w)) in
  let guild := interaction_guild interaction in
  target_roles self !! guild_id guild = None
  ∧ quiet (on_member_update send_outcome self guild before after)
  ∧ quiet (on_presence_update send_outcome self guild before after)
  ∧ (∀ g, g ≠ guild_id guild →
       target_roles self !! g = target_roles (tracker w) !! g)
  ∧ notification_channels self = notification_channels (tracker w).
Proof.
  intros Hperm. simpl. rewrite (removerole_tracker _ _ Hperm).
  set (self := mkBot _ _ _).
  assert (target_roles self !! guild_id (interaction_guild interaction) = None)
    as Hnone by apply lookup_delete_eq.
  split; [done|].
  assert ((∀ g, g ≠ guild_id (interaction_guild interaction) →
             target_roles self !! g = target_roles (tracker w) !! g)
          ∧ notification_channels self = notification_channels (tracker w))
    as Hframe.
  { split; [|done]. intros g Hg. simpl. by rewrite lookup_delete_ne. }
  assert (decision self (interaction_guild interaction) before after = NoAction)
    as Hd.
  { apply decision_untracked. unfold tracked_role. rewrite Hnone.
    by repeat case_match. }
  destruct (on_member_update_run send_outcome self
              (interaction_guild interaction) before after) as (Ha & Hdm & Hf & _).
  destruct (on_presence_update_run send_outcome self
              (interaction_guild interaction) before after) as (Ha' & Hdm' & Hf' & _).
  unfold quiet. rewrite Ha, Ha', Hdm, Hdm', Hf, Hf', Hd. done.
Qed.

(** X11: the channel commands never change what the handlers do.  Whatever
    /setchannel and /removechannel end up doing, they leave the target roles
    alone, and a bot's handling of any event is the same before and after
    them: notifications do not depend on a notification channel. *)
Theorem channel_commands_do_not_affect_notifications
    send_outcome interaction channel w guild before after :
  let w1 := world_after (setchannel_command api py_str interaction channel w) in
  let w2 := world_after (removechannel_command api py_str interaction w) in
  (target_roles (tracker w1) = target_roles (tracker w)
   ∧ on_member_update send_outcome (tracker w1) guild before after
     = on_member_update send_outcome (tracker w) guild before after
   ∧ on_presence_update send_outcome (tracker w1) guild before after
     = on_presence_update send_outcome (tracker w) guild before after)
  ∧ (target_roles (tracker w2) = target_roles (tracker w)
     ∧ on_member_update send_outcome (tracker w2) guild before after
       = on_member_update send_outcome (tracker w) guild before after
     ∧ on_presence_update send_outcome (tracker w2) guild before after
       = on_presence_update send_outcome (tracker w) guild before after).
Proof.
  simpl.
  assert (target_roles
            (tracker (world_after (setchannel_command api py_str interaction channel w)))
          = target_roles (tracker w)) as H1.
  { unfold setchannel_command.
    destruct (administrator (user_permissions interaction)),
      (bot_can_send channel); run_command; destruct_api; done. }
  assert (target_roles
            (tracker (world_after (removechannel_command api py_str interaction w)))
          = target_roles (tracker w)) as H2.
  { unfold removechannel_command.
    destruct (administrator (user_permissions interaction)); run_command;
      [destruct (notification_channels (tracker w) !! _); run_command|];
      destruct_api; done. }
  split; (split; [done|]);
    apply handlers_read_target_role; by rewrite ?H1, ?H2.
Qed.

(** X12: /setchannel by an administrator, for a channel the bot may write
    to, records the channel before it saves or answers, so the assignment
    stands whatever happens next.  The set-up message is posted to the
    channel only once the confirmation has gone out; if posting it fails,
    the command answers the same interaction a second time, with the
    failure text. *)
Theorem setchannel_commits_and_may_answer_twice interaction channel w :
  administrator (user_permissions interaction) = true →
  bot_can_send channel = true →
  let r := setchannel_command api py_str interaction channel w in
  let confirmation :=
    response_send_message (NotificationChannelSet (channel_id channel)) false in
  let setup := channel_send (channel_id channel) BotSetupComplete in
  let failure := response_send_message SetChannelFailed true in
  tracker (world_after r) =
    mkBot (<[guild_id (interaction_guild interaction) := channel_id channel]>
             (notification_channels (tracker w)))
          (target_roles (tracker w)) (previous_online (tracker w))
  ∧ discord_calls (events r) =
      match api confirmation, api setup with
      | Some _, _ => [confirmation; failure]
      | None, Some _ => [confirmation; setup; failure]
      | None, None => [confirmation; setup]
      end
  ∧ (api confirmation = None → api setup = None → outcome r = Returned tt).
Proof.
  intros Hadmin Hsend. unfold setchannel_command. rewrite Hadmin, Hsend.
  run_command. unfold discord_calls. destruct_api; done.
Qed.

(** X13: /testnotify never changes the bot or the settings file and never
    touches the file.  It posts to a channel exactly when the member has
    Manage Roles, the guild has both a notification channel and a target
    role configured, and both resolve; the post is then its first call and
    goes to that channel.  So a guild with a target role but no
    notification channel, whose members are notified by the handlers, is
    told that no channel is set. *)
Theorem testnotify_needs_full_configuration interaction w :
  let r := testnotify_command api get_channel interaction w in
  let self := tracker w in
  let guild := interaction_guild interaction in
  world_after r = w
  ∧ forallb (λ c, negb (is_file_call c)) (calls (events r)) = true
  ∧ (existsb is_channel_send (calls (events r)) = true ↔
     manage_roles (user_permissions interaction) = true
     ∧ ∃ cid rid channel role,
         notification_channels self !! guild_id guild = Some cid
         ∧ target_roles self !! guild_id guild = Some rid
         ∧ get_channel cid = Some channel
         ∧ get_role guild rid = Some role
         ∧ head (calls (events r)) =
             Some (channel_send (channel_id channel)
                     (TestNotification (role_name role) (role_id role)
                        (channel_id channel)
                        (length (role_members guild role)))))
  ∧ (manage_roles (user_permissions interaction) = true →
     notification_channels self !! guild_id guild = None →
     refuses api w NoChannelSetForTest r).
Proof.
  unfold testnotify_command, refuses. simpl.
  destruct (manage_roles (user_permissions interaction)) eqn:Hperm;
    run_command.
  2: { destruct_api; destruct w;
      repeat split; try done; intros; by intuition. }
  destruct (notification_channels (tracker w) !! _) as [cid|] eqn:Hcid;
    run_command.
  2: { destruct_api; destruct w; repeat split; try done;
      intros; try congruence; break_hyps; congruence. }
  destruct (target_roles (tracker w) !! _) as [rid|] eqn:Hrid;
    run_command.
  2: { destruct_api; destruct w; repeat split; try done;
      intros; try congruence; break_hyps; congruence. }
  destruct (get_channel cid) as [ch|] eqn:Hch; run_command.
  2: { destruct_api; destruct w; repeat split; try done;
      intros; try congruence; break_hyps; congruence. }
  destruct (get_role (interaction_guild interaction) rid) as [ro|] eqn:Hro;
    run_command.
  2: { destruct_api; destruct w; repeat split; try done;
      intros; try congruence; break_hyps; congruence. }
  destruct_api; destruct w; repeat split; try done; intros; try congruence;
    eexists _, _, _, _; repeat split; done.
Qed.


(** X15: /testdm changes nothing.  Once the interaction is deferred it
    attempts exactly one direct message, to the invoking member.  A
    Forbidden from that attempt is answered with the how-to-enable-DMs
    text and logged nowhere; any other exception is logged and answered
    with the generic failure text. *)
Theorem testdm_attempts_one_message interaction w :
  let r := testdm_command api interaction w in
  let user := interaction_user interaction in
  let sample := user_send user (SampleDM (display_name user)
                                  (guild_name (interaction_guild interaction))) in
  world_after r = w
  ∧ List.filter is_user_send (calls (events r)) =
      match api (response_defer true) with
      | None => [sample]
      | Some _ => []
      end
  ∧ (api (response_defer true) = None →
     (api sample = None → api (followup_send TestDMSent true) = None →
      calls (events r) = [response_defer true; sample; followup_send TestDMSent true]
      ∧ cmd_errors (events r) = [] ∧ outcome r = Returned tt)
     ∧ (api sample = Some Forbidden →
        api (followup_send CannotSendTestDM true) = None →
        calls (events r) = [response_defer true; sample;
                            followup_send CannotSendTestDM true]
        ∧ cmd_errors (events r) = [] ∧ outcome r = Returned tt)
     ∧ (∀ e, api sample = Some e → e ≠ Forbidden →
        calls (events r) = [response_defer true; sample;
                            followup_send TestDMFailed true]
        ∧ cmd_errors (events r) = [ErrorInTestdm e])).
Proof.
  unfold testdm_command. simpl. run_command.
  split.
  { destruct w. destruct_api; destruct_exn; destruct_api; done. }
  split.
  { destruct (api (response_defer true)); simpl;
      destruct_api; destruct_exn; destruct_api; done. }
  intros Hdefer. rewrite Hdefer. simpl. split; [|split].
  - intros Hs Hf. rewrite Hs. simpl. rewrite Hf. done.
  - intros Hs Hf. rewrite Hs. simpl. rewrite Hf. done.
  - intros e Hs Hne. rewrite Hs. destruct e; try done; simpl; destruct_api; done.
Qed.

End CommandFacts.

(** X10: /setrole followed by /removerole, both allowed, leaves the target
    roles as they were with the guild's entry deleted; for a guild that had
    no target role the bot is back exactly where it was, whatever happened
    to the saves and the answers of either command. *)
Theorem setrole_then_removerole_restores
    api1 api2 py_str interaction1 interaction2 role w :
  manage_roles (user_permissions interaction1) = true →
  manage_roles (user_permissions interaction2) = true →
  guild_id (interaction_guild interaction2) = guild_id (interaction_guild interaction1) →
  let gid := guild_id (interaction_guild interaction1) in
  let w1 := world_after (setrole_command api1 py_str interaction1 role w) in
  let w2 := world_after (removerole_command api2 py_str interaction2 w1) in
  target_roles (tracker w2) = delete gid (target_roles (tracker w))
  ∧ (target_roles (tracker w) !! gid = None → tracker w2 = tracker w).
Proof.
  intros Hperm1 Hperm2 Hsame. simpl.
  rewrite (removerole_tracker _ _ _ _ Hperm2), (setrole_tracker _ _ _ _ _ Hperm1).
  simpl. rewrite Hsame, delete_insert_eq. split; [done|].
  intros Hnone. rewrite delete_id by done. by destruct (tracker w).
Qed.

(** ** The online summary *)

Lemma status_groups_filters (l : list Member) :
  status_groups l =
  [(online, filter (λ m, status m = online) l);
   (idle, filter (λ m, status m = idle) l);
   (dnd, filter (λ m, status m = dnd) l)].
Proof.
  unfold status_groups.
  induction l as [|m l IH] using rev_ind; [done|].
  rewrite foldl_snoc, IH, !filter_app, !filter_cons, !filter_nil.
  destruct (status m) eqn:Hm; simpl; rewrite ?app_nil_r; try done.
Qed.

Lemma status_fields_counts limit all (groups : list (Status * list Member)) :
  sum_list (field_count <$> omap (status_field limit all) groups)
  = sum_list ((λ g, length g.2) <$> groups)
  ∧ length (omap (status_field limit all) groups)
    = length (filter (λ g : Status * list Member, g.2 ≠ []) groups).
Proof.
  induction groups as [|[s [|m members]] groups [IH1 IH2]]; [done| |].
  - rewrite filter_cons_False by (simpl; intros H; by apply H).
    change (omap (status_field limit all) ((s, []) :: groups))
      with (omap (status_field limit all) groups).
    rewrite fmap_cons, IH1, IH2. done.
  - rewrite filter_cons_True by done.
    change (omap (status_field limit all) ((s, m :: members) :: groups))
      with (default (mkStatusField s 0 [] None false)
                    (status_field limit all (s, m :: members))
            :: omap (status_field limit all) groups).
    rewrite !fmap_cons. cbn [sum_list length]. rewrite IH1, IH2. done.
Qed.

Lemma status_field_shape limit all g f :
  status_field limit all g = Some f →
  0 < field_count f
  ∧ field_count f = length g.2
  ∧ field_status f = g.1
  ∧ length (field_names f) = field_count f `min` limit
  ∧ field_more f = (if decide (field_count f ≤ limit) then None
                    else Some (field_count f - limit))
  ∧ field_inline f = bool_decide
      (1 < length (filter (λ g' : Status * list Member, g'.2 ≠ []) all)).
Proof.
  unfold status_field. destruct g as [s [|m members]]; [done|].
  intros [= <-]. cbn [field_count field_names field_more field_status
                      field_inline fst snd].
  repeat split; try done; [lia|].
  rewrite length_fmap. case_decide; [|rewrite length_take];
    cbn [length] in *; lia.
Qed.

(** X16: the status groups built for the online summary (and for /online)
    account for every online member exactly once: the three groups are the
    online members with status online, idle and dnd, in roster order, and
    their sizes add up to the number of online members, which also is the
    total of the counts shown in the embed's fields.  There is one field
    per non-empty group; it lists at most [limit] names and counts the
    rest, and it is inline exactly when there is more than one field. *)
Theorem status_groups_account_for_every_online_member guild limit :
  let online_members := get_online_members guild in
  let groups := status_groups online_members in
  let fields := status_fields limit groups in
  groups = [(online, filter (λ m, status m = online) online_members);
            (idle, filter (λ m, status m = idle) online_members);
            (dnd, filter (λ m, status m = dnd) online_members)]
  ∧ sum_list ((λ g, length g.2) <$> groups) = length online_members
  ∧ sum_list (field_count <$> fields) = length online_members
  ∧ length online_members ≤ length (members guild)
  ∧ Forall (λ f, 0 < field_count f
                 ∧ length (field_names f) = field_count f `min` limit
                 ∧ field_more f = (if decide (field_count f ≤ limit) then None
                                   else Some (field_count f - limit))
                 ∧ field_inline f = bool_decide (1 < length fields))
           fields.
Proof.
  simpl. split; [apply status_groups_filters|].
  assert (sum_list ((λ g, length g.2) <$> status_groups (get_online_members guild))
          = length (get_online_members guild)) as Hsum.
  { rewrite status_groups_filters. simpl.
    assert (Forall (λ m, status m ≠ offline ∧ status m ≠ invisible)
                   (get_online_members guild)) as Hon.
    { apply Forall_forall. intros m Hm.
      apply list_elem_of_filter in Hm as [(_ & ? & ?) _]. done. }
    induction Hon as [|m l [Hoff Hinv] _ IH]; [done|].
    rewrite !filter_cons.
    destruct (status m); try done; simpl in *; lia. }
  split; [done|].
  destruct (status_fields_counts limit
              (status_groups (get_online_members guild))
              (status_groups (get_online_members guild))) as [Hcount Hlen].
  split; [unfold status_fields; by rewrite Hcount|].
  split; [apply length_filter|].
  apply Forall_forall. intros f Hf.
  unfold status_fields in Hf. apply list_elem_of_omap in Hf as (g & _ & Hg).
  apply status_field_shape in Hg as (? & _ & _ & ? & ? & Hinline).
  repeat split; try done.
  rewrite Hinline. unfold status_fields. by rewrite Hlen.
Qed.

(** ** Start-up report and the logs of deliveries *)

Lemma for_each_ext {A S} (body1 body2 : S → A → Py S) l s :
  (∀ s x, body1 s x = body2 s x) → for_each l s body1 = for_each l s body2.
Proof.
  intros Hext. revert s. induction l as [|x l IH]; intros s; [done|].
  cbn [for_each]. rewrite Hext. py_unfold.
  destruct (body2 s x) as [t [s'|e]]; [by rewrite IH|done].
Qed.

Lemma for_each_log {A} (g : A → LogMsg) (l : list A) s :
  for_each l s (λ _ x, log INFO (g x)) = ((λ x, Log INFO (g x)) <$> l, Returned tt).
Proof.
  revert s. induction l as [|x l IH]; intros []; [done|].
  cbn [for_each]. unfold mbind, Py_bind, py_bind.
  change (log INFO (g x)) with (([Log INFO (g x)] : Trace), Returned tt).
  cbv iota beta. rewrite IH. reflexivity.
Qed.

Lemma presence_count_loop (l : list Member) online_count offline_count :
  for_each l (online_count, offline_count)
    (λ '(online_count, offline_count) member,
       mret (if bot member then (online_count, offline_count)
             else if shows_online member then (S online_count, offline_count)
             else (online_count, S offline_count)))
  = ([], Returned
           (online_count
            + length (filter (λ m, bot m = false ∧ shows_online m = true) l),
            offline_count
            + length (filter (λ m, bot m = false ∧ shows_online m = false) l))).
Proof.
  revert online_count offline_count.
  induction l as [|m l IH]; intros on off.
  - simpl. py_unfold. by rewrite !Nat.add_0_r.
  - cbn [for_each]. py_unfold. rewrite !filter_cons.
    destruct (bot m) eqn:Hbot, (shows_online m) eqn:Hon; rewrite IH;
      repeat case_decide; simpl; try (by intuition);
      do 3 f_equal; lia.
Qed.

Lemma on_ready_guild_report self guild :
  on_ready_guild self guild =
  (guild_report self guild,
   Returned (mkBot (notification_channels self) (target_roles self)
                   (<[guild_id guild := online_ids guild]> (previous_online self)))).
Proof.
  unfold on_ready_guild, guild_report. py_unfold.
  rewrite presence_count_loop.
  destruct (target_roles self !! guild_id guild) as [rid|];
    [destruct (get_role guild rid) as [r|]|]; try reflexivity.
  rewrite (for_each_ext _
             (λ _ im, log INFO (TargetRoleMemberLine (im.1 + 1)
                                  (display_name im.2) (status im.2))))
    by (by intros [] [i x]).
  rewrite for_each_log. unfold role_member_lines. simpl.
  by rewrite app_nil_r.
Qed.

Lemma on_ready_report_loop guilds self :
  for_each guilds self on_ready_guild =
  (guilds ≫= guild_report self,
   Returned (mkBot (notification_channels self) (target_roles self)
                   (tracked_after guilds (previous_online self)))).
Proof.
  revert self. induction guilds as [|g guilds IH]; intros self.
  - by destruct self.
  - cbn [for_each]. rewrite on_ready_guild_report. py_unfold. rewrite IH.
    reflexivity.
Qed.

Lemma logged_guild_report_errors self guilds :
  logged ERROR (guilds ≫= guild_report self) = [].
Proof.
  induction guilds as [|g guilds IH]; [done|].
  change ((g :: guilds) ≫= guild_report self)
    with (guild_report self g ++ (guilds ≫= guild_report self)).
  rewrite logged_app, IH, app_nil_r. unfold guild_report.
  rewrite logged_app. simpl.
  destruct (target_roles self !! guild_id g) as [rid|];
    [destruct (get_role g rid) as [r|]|]; try done.
  simpl. unfold role_member_lines.
  induction (imap pair (take 3 (role_members g r))) as [|x l IHl]; done.
Qed.

(** X17: [on_ready] only refreshes the tracking.  It always returns, leaves
    the notification channels, the target roles and the [previous_online]
    entries of guilds the bot is not in as they were, and a failure of
    [change_presence] or of the command sync costs one error record each
    and nothing else: the guild loop still runs. *)
Theorem on_ready_only_refreshes_tracking
    change_presence_outcome tree_sync_outcome self guilds :
  let c := on_ready change_presence_outcome tree_sync_outcome self guilds in
  ∃ self',
    result c = Returned self'
    ∧ notification_channels self' = notification_channels self
    ∧ target_roles self' = target_roles self
    ∧ (∀ k, k ∉ guild_id <$> guilds →
            previous_online self' !! k = previous_online self !! k)
    ∧ logged ERROR (trace c) =
        match change_presence_outcome with
        | Some e => [FailedToSetBotStatus e]
        | None => []
        end
        ++ match tree_sync_outcome with
           | inl e => [FailedToSyncCommands e]
           | inr _ => []
           end
    ∧ fan_outs (trace c) = [] ∧ dms (trace c) = [].
Proof.
  simpl. unfold on_ready, change_presence, tree_sync.
  eexists (mkBot _ _ _).
  pose proof (logged_guild_report_errors self guilds) as Herr.
  assert (fan_outs (guilds ≫= guild_report self) = []
          ∧ dms (guilds ≫= guild_report self) = []) as [Hfan Hdms].
  { clear Herr. induction guilds as [|g guilds [IH1 IH2]]; [done|].
    change ((g :: guilds) ≫= guild_report self)
      with (guild_report self g ++ (guilds ≫= guild_report self)).
    rewrite fan_outs_app, dms_app, IH1, IH2, !app_nil_r. unfold guild_report.
    rewrite fan_outs_app, dms_app. simpl.
    destruct (target_roles self !! guild_id g) as [rid|];
      [destruct (get_role g rid) as [r|]|]; try done.
    simpl. unfold role_member_lines.
    induction (imap pair (take 3 (role_members g r))) as [|x l IHl]; done. }
  destruct change_presence_outcome as [e|], tree_sync_outcome as [e'|n];
    py_unfold; simpl; rewrite on_ready_report_loop; simpl;
    rewrite ?Herr, ?Hfan, ?Hdms;
    (split; [reflexivity|]); repeat split; try done;
    intros k Hk; by apply tracked_after_other.
Qed.

(** X18: the two counts [on_ready] logs for a guild are the number of
    members [get_online_members] returns and the number of the remaining
    non-bot members, so together they count every cached member that is not
    a bot; the warning for a target role that does not resolve is the only
    record above info level. *)
Theorem on_ready_counts_match_online_members self guild :
  let t := trace (on_ready_guild self guild) in
  let humans := filter (λ m, bot m = false) (members guild) in
  ∃ online_count offline_count,
    logged INFO t !! 3 = Some (OnlineMembersVisible online_count)
    ∧ logged INFO t !! 4 = Some (OfflineMembersVisible offline_count)
    ∧ online_count = length (get_online_members guild)
    ∧ online_count + offline_count = length humans
    ∧ logged ERROR t = []
    ∧ logged WARNING t =
        match target_roles self !! guild_id guild with
        | Some target_role_id =>
            match get_role guild target_role_id with
            | None => [TargetRoleNotFoundAtStartup target_role_id]
            | Some _ => []
            end
        | None => []
        end.
Proof.
  simpl. rewrite on_ready_guild_report. unfold trace, guild_report. cbn [fst].
  eexists _, _. rewrite !logged_app. cbn [logged omap list_omap app].
  split; [reflexivity|]. split; [reflexivity|]. split.
  { unfold get_online_members. f_equal. apply list_filter_iff.
    intros m. unfold shows_online.
    rewrite andb_true_iff, !bool_decide_eq_true. tauto. }
  split.
  { induction (members guild) as [|m l IH]; [done|].
    rewrite !filter_cons.
    destruct (bot m), (shows_online m); repeat case_decide;
      simpl in *; try (by intuition); lia. }
  assert (∀ lvl r, lvl ≠ INFO → logged lvl (role_member_lines guild r) = [])
    as Hlines.
  { intros lvl r Hlvl. unfold role_member_lines.
    induction (imap pair (take 3 (role_members guild r))) as [|x l IHl];
      [done|]. destruct lvl; done. }
  destruct (target_roles self !! guild_id guild) as [rid|];
    [destruct (get_role guild rid) as [r|]|]; simpl; rewrite ?Hlines; done.
Qed.

Section DeliveryLogs.

Context (send_outcome : Member → option exn).

Lemma logged_attempts l :
  logged ERROR (attempts send_outcome l)
  = omap delivery_error ((λ m, (m, send_outcome m)) <$> l)
  ∧ logged WARNING (attempts send_outcome l)
    = omap delivery_warning ((λ m, (m, send_outcome m)) <$> l).
Proof.
  induction l as [|m l [IH1 IH2]]; [done|].
  rewrite attempts_cons, fmap_cons.
  change (DM m (send_outcome m) :: attempt_log m (send_outcome m)
          :: attempts send_outcome l)
    with ([DM m (send_outcome m); attempt_log m (send_outcome m)]
          ++ attempts send_outcome l).
  rewrite !logged_app.
  rewrite IH1, IH2. unfold delivery_error, delivery_warning.
  destruct (send_outcome m) as [[]|]; done.
Qed.

Lemma send_dm_notifications_logs guild member target_role :
  let t := trace (send_dm_notifications send_outcome guild member target_role) in
  logged ERROR t = omap delivery_error (dms t)
  ∧ logged WARNING t = omap delivery_warning (dms t).
Proof.
  simpl. rewrite send_dm_notifications_dms, send_dm_notifications_run.
  unfold trace. cbn [fst].
  destruct (logged_attempts (members_to_notify guild member target_role))
    as [<- <-].
  destruct (members_to_notify guild member target_role) as [|m l]; [done|].
  split;
    match goal with
    | |- logged ?lvl (_ :: _ :: ?t) = ?rhs => change (logged lvl t = rhs)
    end;
    rewrite logged_app; apply app_nil_r.
Qed.

Ltac enter_delivery g a r :=
  pose proof (send_dm_notifications_logs g a r) as [Herr _];
  pose proof (send_dm_notifications_returns send_outcome g a r) as Hres;
  destruct (send_dm_notifications send_outcome g a r) as [t res];
  unfold trace, result in *; simpl in *; subst.

Ltac error_cases self g b a :=
  destruct (decide (status b = status a)); [done|];
  destruct (bot a); [done|];
  destruct (target_roles self !! guild_id g) as [rid|]; [|done];
  simpl; destruct (get_role g rid) as [r|]; [|done];
  simpl; rewrite ?bool_decide_decide;
  destruct (decide (role_in r (roles a))); [|done];
  simpl; py_unfold;
  destruct (shows_online b), (shows_online a); simpl; try done;
  enter_delivery g a r.

(** X19: failed deliveries never escape and are logged once each.  For
    every event and whatever each delivery does, both handlers return
    normally, and their error-level records are exactly one per direct
    message that raised something other than Forbidden, in order; their own
    [except] clauses never log.  In the fan-out a Forbidden leaves one
    warning and no error. *)
Theorem delivery_failures_are_contained self guild before after member target_role :
  let f := send_dm_notifications send_outcome guild member target_role in
  let m := on_member_update send_outcome self guild before after in
  let p := on_presence_update send_outcome self guild before after in
  (result f = Returned tt
   ∧ logged ERROR (trace f) = omap delivery_error (dms (trace f))
   ∧ logged WARNING (trace f) = omap delivery_warning (dms (trace f)))
  ∧ (result m = Returned tt
     ∧ logged ERROR (trace m) = omap delivery_error (dms (trace m)))
  ∧ (result p = Returned tt
     ∧ logged ERROR (trace p) = omap delivery_error (dms (trace p))).
Proof.
  simpl. split; [|split].
  - split; [apply send_dm_notifications_returns|].
    apply send_dm_notifications_logs.
  - unfold on_member_update. error_cases self guild before after. done.
  - unfold on_presence_update.
    destruct (decide (activity before ≠ activity after));
      error_cases self guild before after; done.
Qed.

End DeliveryLogs.

(** ** Concrete runs *)

Lemma save_settings_is_contained_witness :
  cmd_errors (events (save_settings Deployment.all_succeed
                        Deployment.decimal_str Deployment.configured)) = [].
Proof.
  destruct (save_settings_is_contained Deployment.all_succeed
              Deployment.decimal_str Deployment.configured)
    as (_ & _ & _ & Hquiet).
  apply Hquiet. split; reflexivity.
Defined.

Lemma settings_survive_restart_witness :
  target_roles
    (tracker (world_after
       (tracker_init Deployment.all_succeed Deployment.decimal_int
          (world_after (save_settings Deployment.all_succeed
                          Deployment.decimal_str Deployment.configured)))))
  = <[1%Z := 100%Z]> ∅.
Proof.
  refine (proj1 (proj2 (settings_survive_restart Deployment.all_succeed
            Deployment.decimal_str Deployment.decimal_int Deployment.configured
            decimal_int_str eq_refl eq_refl eq_refl))).
Defined.

Lemma load_settings_keeps_settings_on_failure_witness :
  world_after (load_settings Deployment.all_succeed Deployment.decimal_int
                 (mkWorld Scenario.self Unreadable))
  = mkWorld Scenario.self Unreadable
  ∧ events (load_settings Deployment.all_succeed Deployment.decimal_int
              Deployment.configured) = [].
Proof.
  destruct (load_settings_keeps_settings_on_failure Deployment.all_succeed
              Deployment.decimal_int (mkWorld Scenario.self Unreadable))
    as (_ & _ & _ & _ & Hbad).
  destruct (load_settings_keeps_settings_on_failure Deployment.all_succeed
              Deployment.decimal_int Deployment.configured)
    as (_ & _ & _ & Habsent & _).
  split.
  - apply Hbad. left. reflexivity.
  - apply Habsent. reflexivity.
Defined.

Lemma load_settings_replaces_settings_witness :
  tracker (world_after
     (load_settings Deployment.all_succeed Deployment.decimal_int
        (mkWorld Scenario.self
           (Holds (mkSettingsJson (Some [("7", 500%Z)]) None)))))
  = mkBot (<[7%Z := 500%Z]> ∅) ∅ ∅.
Proof.
  refine (proj1 (load_settings_replaces_settings Deployment.all_succeed
            Deployment.decimal_int
            (mkWorld Scenario.self
               (Holds (mkSettingsJson (Some [("7", 500%Z)]) None)))
            (mkSettingsJson (Some [("7", 500%Z)]) None)
            (<[7%Z := 500%Z]> ∅) ∅ eq_refl eq_refl _ _)); reflexivity.
Defined.

Lemma load_settings_is_not_atomic_witness :
  tracker (world_after
     (load_settings Deployment.all_succeed Deployment.decimal_int
        (mkWorld Scenario.self
           (Holds (mkSettingsJson (Some [("7", 500%Z)])
                                  (Some [("seven", 100%Z)]))))))
  = mkBot (<[7%Z := 500%Z]> ∅) (<[1%Z := 100%Z]> ∅) ∅.
Proof.
  destruct (load_settings_is_not_atomic Deployment.all_succeed
              Deployment.decimal_int
              (mkWorld Scenario.self
                 (Holds (mkSettingsJson (Some [("7", 500%Z)])
                                        (Some [("seven", 100%Z)]))))
              (mkSettingsJson (Some [("7", 500%Z)]) (Some [("seven", 100%Z)]))
              eq_refl eq_refl) as (Hpartial & _).
  destruct (Hpartial (<[7%Z := 500%Z]> ∅)) as (Hbot & _);
    [reflexivity|reflexivity|exact Hbot].
Defined.

Lemma refused_commands_change_nothing_witness :
  refuses Deployment.all_succeed Deployment.configured ManageRolesRequired
    (setrole_command Deployment.all_succeed Deployment.decimal_str
       Deployment.by_nobody Scenario.R Deployment.configured)
  ∧ refuses Deployment.all_succeed Deployment.configured AdministratorRequired
      (removechannel_command Deployment.all_succeed Deployment.decimal_str
         Deployment.by_nobody Deployment.configured)
  ∧ refuses Deployment.all_succeed Deployment.fresh (CannotSendIn 600)
      (setchannel_command Deployment.all_succeed Deployment.decimal_str
         Deployment.by_admin (mkTextChannel 600 false) Deployment.fresh).
Proof.
  destruct (refused_commands_change_nothing Deployment.all_succeed
              Deployment.decimal_str Deployment.channel_cache
              Deployment.by_nobody Deployment.general Scenario.R
              Deployment.configured) as (Hroles & Hadmin & _).
  destruct (refused_commands_change_nothing Deployment.all_succeed
              Deployment.decimal_str Deployment.channel_cache
              Deployment.by_admin (mkTextChannel 600 false) Scenario.R
              Deployment.fresh) as (_ & _ & Hchannel).
  split; [apply (Hroles eq_refl)|]. split; [apply (Hadmin eq_refl)|].
  apply Hchannel; reflexivity.
Defined.

Lemma setrole_commits_before_answering_witness :
  target_roles (tracker (world_after
     (setrole_command Deployment.dump_fails Deployment.decimal_str
        Deployment.by_admin Scenario.R Deployment.fresh)))
  = <[1%Z := 100%Z]> ∅
  ∧ outcome (setrole_command Deployment.dump_fails Deployment.decimal_str
               Deployment.by_admin Scenario.R Deployment.fresh) = Returned tt.
Proof.
  destruct (setrole_commits_before_answering Deployment.dump_fails
              Deployment.decimal_str Deployment.by_admin Scenario.R
              Deployment.fresh eq_refl) as (Hbot & _ & Hconfirmed & _).
  split; [by rewrite Hbot|]. apply Hconfirmed. reflexivity.
Defined.

Lemma setrole_then_coming_online_notifies_witness :
  (dms (trace (on_presence_update Scenario.all_receive
          (tracker (world_after
             (setrole_command Deployment.all_succeed Deployment.decimal_str
                Deployment.by_admin Scenario.R Deployment.fresh)))
          Scenario.guild (Scenario.u 1 offline [Scenario.R]) Scenario.u1))).*1
  = [Scenario.u2; Scenario.u3].
Proof.
  refine (proj2 (proj2 (setrole_then_coming_online_notifies
            Deployment.all_succeed Deployment.decimal_str Scenario.all_receive
            Deployment.by_admin Scenario.R Deployment.fresh
            (Scenario.u 1 offline [Scenario.R]) Scenario.u1
            eq_refl eq_refl eq_refl _ _ _))); by_decide.
Defined.

Lemma removerole_silences_the_guild_witness :
  quiet (on_member_update Scenario.all_receive
           (tracker (world_after
              (removerole_command Deployment.all_succeed Deployment.decimal_str
                 Deployment.by_admin Deployment.configured)))
           Scenario.guild (Scenario.u 1 offline [Scenario.R]) Scenario.u1).
Proof.
  refine (proj1 (proj2 (removerole_silences_the_guild Deployment.all_succeed
            Deployment.decimal_str Scenario.all_receive Deployment.by_admin
            Deployment.configured (Scenario.u 1 offline [Scenario.R])
            Scenario.u1 eq_refl))).
Defined.

Lemma setrole_then_removerole_restores_witness :
  tracker (world_after
     (removerole_command Deployment.dump_fails Deployment.decimal_str
        Deployment.by_admin
        (world_after (setrole_command Deployment.dump_fails
                        Deployment.decimal_str Deployment.by_admin Scenario.R
                        Deployment.fresh))))
  = tracker Deployment.fresh.
Proof.
  destruct (setrole_then_removerole_restores Deployment.dump_fails
              Deployment.dump_fails Deployment.decimal_str Deployment.by_admin
              Deployment.by_admin Scenario.R Deployment.fresh
              eq_refl eq_refl eq_refl) as (_ & Hback).
  apply Hback. reflexivity.
Defined.

Lemma setchannel_commits_and_may_answer_twice_witness :
  discord_calls (events
     (setchannel_command Deployment.channel_send_fails Deployment.decimal_str
        Deployment.by_admin Deployment.general Deployment.fresh))
  = [response_send_message (NotificationChannelSet 500) false;
     channel_send 500 BotSetupComplete;
     response_send_message SetChannelFailed true].
Proof.
  refine (proj1 (proj2 (setchannel_commits_and_may_answer_twice
            Deployment.channel_send_fails Deployment.decimal_str
            Deployment.by_admin Deployment.general Deployment.fresh
            eq_refl eq_refl))).
Defined.

Lemma testnotify_needs_full_configuration_witness :
  refuses Deployment.all_succeed (mkWorld Scenario.self Absent)
    NoChannelSetForTest
    (testnotify_command Deployment.all_succeed Deployment.channel_cache
       Deployment.by_admin (mkWorld Scenario.self Absent))
  ∧ existsb is_channel_send
      (calls (events (testnotify_command Deployment.all_succeed
                        Deployment.channel_cache Deployment.by_admin
                        Deployment.configured))) = true.
Proof.
  destruct (testnotify_needs_full_configuration Deployment.all_succeed
              Deployment.channel_cache Deployment.by_admin
              (mkWorld Scenario.self Absent)) as (_ & _ & _ & Hrefuse).
  destruct (testnotify_needs_full_configuration Deployment.all_succeed
              Deployment.channel_cache Deployment.by_admin
              Deployment.configured) as (_ & _ & Hposts & _).
  split; [apply Hrefuse; reflexivity|].
  apply Hposts. split; [reflexivity|].
  exists 500%Z, 100%Z, Deployment.general, Scenario.R.
  repeat split; reflexivity.
Defined.


Lemma testdm_attempts_one_message_witness :
  calls (events (testdm_command Deployment.user_send_forbidden
                   Deployment.by_admin Deployment.configured))
  = [response_defer true;
     user_send Scenario.u2 (SampleDM "user" "guild");
     followup_send CannotSendTestDM true].
Proof.
  destruct (testdm_attempts_one_message Deployment.user_send_forbidden
              Deployment.by_admin Deployment.configured)
    as (_ & _ & Hdeferred).
  destruct (Hdeferred eq_refl) as (_ & Hforbidden & _).
  apply Hforbidden; reflexivity.
Defined.

Lemma on_ready_only_refreshes_tracking_witness :
  ∃ self',
    result (on_ready (Some Forbidden) (inl OtherException)
              (mkBot ∅ ∅ (<[77%Z := {[5%Z]}]> ∅)) [Scenario.guild])
    = Returned self'
    ∧ previous_online self' !! 77%Z = Some {[5%Z]}.
Proof.
  destruct (on_ready_only_refreshes_tracking (Some Forbidden)
              (inl OtherException) (mkBot ∅ ∅ (<[77%Z := {[5%Z]}]> ∅))
              [Scenario.guild]) as (self' & Hrun & _ & _ & Hkept & _).
  exists self'. split; [exact Hrun|].
  rewrite Hkept; [reflexivity|by_decide].
Defined.
